(** * gltzstripe: configuration lifecycle and transaction-session mapping

    A shallow embedding of
      - the error taxonomy, [src/errors.ts] lines 1-79;
      - class [AppConfigurator] and [getConfigurationForChannel], the module
        that follows it in the same file ([src/errors.ts] lines 80-232);
      - add and delete of configuration entries,
        [src/modules/payment-app-configuration/config-manager.ts];
      - key validation and the pure session mappers, the Stripe API module
        in [src/modules/webhooks/transaction-initialize-session.test.ts]
        lines 73-250;
    followed by the properties of these functions.  Logger calls have no
    effect on results or on the store and are left out. *)

From Stdlib Require Import NArith Floats.
From stdpp Require Import base option list strings pretty gmap fin_maps.

Local Set Warnings "-register-all,-clear-no-such-hyp,-inexact-float".

Local Open Scope string_scope.

(* ===================================================================== *)
(** ** JavaScript outcomes *)
(* ===================================================================== *)

(** A call either returns a value or throws.  [E] is the type of thrown
    values. *)
Inductive JsResult (E A : Type) : Type :=
| Returned (a : A)
| Thrown (e : E).
Arguments Returned {E A} a.
Arguments Thrown {E A} e.

(* ===================================================================== *)
(** ** Error taxonomy ([src/errors.ts]) *)
(* ===================================================================== *)

Module Errors.

(** One constructor per [X.subclass("...")] declaration that the modelled
    functions can raise or that sits next to one they raise, plus
    [EntryNotFoundError] of [config-manager.ts], the failure of
    [invariant] in [@/lib/invariant], [UpstreamError] for whatever a
    collaborator outside this repository throws, and the built-in
    [TypeError] of the language. *)
Inductive ErrorClass : Type :=
| BaseError
| UnknownError
| JsonSchemaError
| BaseTrpcError
| FieldError
| RestrictedKeyNotSupportedError
| InvalidSecretKeyError
| UnexpectedSecretKeyError
| InvalidPublishableKeyError
| UnexpectedPublishableKeyError
| EntryNotFoundError
| InvariantError
| UpstreamError
| TypeError.

#[global] Instance ErrorClass_eq_dec : EqDecision ErrorClass.
Proof. solve_decision. Defined.

(** [C.subclass(...)]: the class each one extends. *)
Definition parent (c : ErrorClass) : option ErrorClass :=
  match c with
  | BaseError | InvariantError | UpstreamError | TypeError => None
  | UnknownError | JsonSchemaError | BaseTrpcError | EntryNotFoundError =>
      Some BaseError
  | FieldError => Some BaseTrpcError
  | RestrictedKeyNotSupportedError
  | InvalidSecretKeyError
  | UnexpectedSecretKeyError
  | InvalidPublishableKeyError
  | UnexpectedPublishableKeyError => Some FieldError
  end.

(** The [props] each declaration passes, own value winning over the
    inherited one. *)
Definition trpcCode (c : ErrorClass) : option string :=
  match c with
  | BaseTrpcError | FieldError
  | RestrictedKeyNotSupportedError
  | InvalidSecretKeyError | UnexpectedSecretKeyError
  | InvalidPublishableKeyError | UnexpectedPublishableKeyError =>
      Some "INTERNAL_SERVER_ERROR"
  | _ => None
  end.

Definition fieldName (c : ErrorClass) : option string :=
  match c with
  | RestrictedKeyNotSupportedError
  | InvalidSecretKeyError
  | UnexpectedSecretKeyError => Some "secretKey"
  | InvalidPublishableKeyError
  | UnexpectedPublishableKeyError => Some "publishableKey"
  | _ => None
  end.

(** A thrown error: [new C(message)]. *)
Record Error : Type := mkError { class : ErrorClass; message : string }.

#[global] Instance Error_eq_dec : EqDecision Error.
Proof. solve_decision. Defined.

End Errors.
Import Errors.

Abbreviation Result := (JsResult Error).

(* ===================================================================== *)
(** ** Result translation ([stripePaymentIntentToTransactionResult]) *)
(* ===================================================================== *)

(** [TransactionFlowStrategyEnum] of [generated/graphql].  The generated enum
    has the two members [Authorization] and [Charge]; [OtherStrategy] stands
    for any other run-time value, which the source guards against with
    [invariant]. *)
Inductive TransactionFlowStrategyEnum : Type :=
| Authorization
| Charge
| OtherStrategy (raw : string).

#[global] Instance TransactionFlowStrategyEnum_eq_dec :
  EqDecision TransactionFlowStrategyEnum.
Proof. solve_decision. Defined.

Definition strategy_to_string (s : TransactionFlowStrategyEnum) : string :=
  match s with
  | Authorization => "AUTHORIZATION"
  | Charge => "CHARGE"
  | OtherStrategy raw => raw
  end.

(** [invariant(condition, message)] of [@/lib/invariant]: throws when the
    condition is falsy. *)
Definition invariant (condition : option string) (msg : string)
  : Result string :=
  match condition with
  | Some "" | None => Thrown (mkError InvariantError msg)
  | Some v => Returned v
  end.

(** The function reads [stripePaymentIntent.status] and nothing else of its
    second argument, so the status is the argument here.  It returns a
    string, or falls off the end of the [switch], which in JavaScript yields
    [undefined]: [None] below. *)
Definition stripePaymentIntentToTransactionResult
    (transactionFlowStrategy : TransactionFlowStrategyEnum)
    (status : string) : Result (option string) :=
  let stripeResult := status in
  let prefix :=
    if decide (transactionFlowStrategy = Authorization) then Some "AUTHORIZATION"
    else if decide (transactionFlowStrategy = Charge) then Some "CHARGE"
    else None in
  match invariant prefix
          ("Unsupported transactionFlowStrategy: "
             ++ strategy_to_string transactionFlowStrategy) with
  | Thrown e => Thrown e
  | Returned prefix =>
      if decide (stripeResult = "requires_payment_method") then
        Returned (Some (prefix ++ "_REQUESTED"))
      else if decide (stripeResult = "processing") then
        Returned (Some (prefix ++ "_REQUESTED"))
      else if decide (stripeResult = "requires_action") then
        Returned (Some (prefix ++ "_ACTION_REQUIRED"))
      else if decide (stripeResult = "requires_capture") then
        Returned (Some (prefix ++ "_ACTION_REQUIRED"))
      else if decide (stripeResult = "requires_confirmation") then
        Returned (Some (prefix ++ "_ACTION_REQUIRED"))
      else if decide (stripeResult = "canceled") then
        Returned (Some (prefix ++ "_FAILURE"))
      else if decide (stripeResult = "succeeded") then
        Returned (Some (prefix ++ "_SUCCESS"))
      else Returned None
  end.

(** The statuses with a [case] in the [switch]. *)
Definition handled_statuses : list string :=
  [ "requires_payment_method"; "processing"; "requires_action";
    "requires_capture"; "requires_confirmation"; "canceled"; "succeeded" ].

(** The translation table as the specification words it: the prefix per
    strategy and the suffix per status. *)
Definition strategy_prefix (s : TransactionFlowStrategyEnum) : option string :=
  match s with
  | Authorization => Some "AUTHORIZATION"
  | Charge => Some "CHARGE"
  | OtherStrategy _ => None
  end.

Definition status_suffix (status : string) : option string :=
  if bool_decide (status ∈ ["requires_payment_method"; "processing"]) then
    Some "_REQUESTED"
  else if bool_decide (status ∈ ["requires_action"; "requires_capture";
                                 "requires_confirmation"]) then
    Some "_ACTION_REQUIRED"
  else if bool_decide (status = "canceled") then Some "_FAILURE"
  else if bool_decide (status = "succeeded") then Some "_SUCCESS"
  else None.

(* ===================================================================== *)
(** ** Request construction (the session-event mappers) *)
(* ===================================================================== *)

(** JSON values, for the opaque [event.data] payload and the request that is
    built from it.  Objects are string-keyed maps; numbers are the doubles of
    JavaScript. *)
Inductive Json : Type :=
| JNull
| JBool (b : bool)
| JNum (x : float)
| JStr (s : string)
| JArr (items : list Json)
| JObj (fields : gmap string Json).

Abbreviation JsObject := (gmap string Json).

(** A JavaScript string is a sequence of UTF-16 code units; a Rocq string
    is a sequence of bytes.  The bytes are read as the UTF-8 form of the
    string, a lone surrogate being written in the same three-byte pattern as
    any other code unit above 0x7FF.  [code_units] cuts a string into its
    code units, each as a string of its own: a sequence of one, two or three
    bytes is one unit; a sequence of four bytes is a code point beyond
    0xFFFF and gives its two surrogates.  A byte that starts no well-formed
    sequence is kept as a unit by itself. *)
Definition is_continuation (b : Ascii.ascii) : bool :=
  ((128 <=? Ascii.N_of_ascii b) && (Ascii.N_of_ascii b <? 192))%N.

Definition lead_in (lo hi : N) (b : Ascii.ascii) : bool :=
  ((lo <=? Ascii.N_of_ascii b) && (Ascii.N_of_ascii b <? hi))%N.

Definition bytes_to_string (bytes : list Ascii.ascii) : string :=
  String.string_of_list_ascii bytes.

(** The three-byte form of a code unit in 0x0800..0xFFFF. *)
Definition three_bytes (unit : N) : string :=
  bytes_to_string [ Ascii.ascii_of_N (224 + unit / 4096)%N;
                    Ascii.ascii_of_N (128 + (unit / 64) mod 64)%N;
                    Ascii.ascii_of_N (128 + unit mod 64)%N ].

Definition code_point_4 (b1 b2 b3 b4 : Ascii.ascii) : N :=
  ((Ascii.N_of_ascii b1 mod 8) * 262144 + (Ascii.N_of_ascii b2 mod 64) * 4096
   + (Ascii.N_of_ascii b3 mod 64) * 64 + Ascii.N_of_ascii b4 mod 64)%N.

Definition high_surrogate (code_point : N) : N :=
  (55296 + (code_point - 65536) / 1024)%N.

Definition low_surrogate (code_point : N) : N :=
  (56320 + (code_point - 65536) mod 1024)%N.

Fixpoint code_units_of_bytes (bytes : list Ascii.ascii) : list string :=
  match bytes with
  | [] => []
  | b1 :: rest1 =>
      let alone := bytes_to_string [b1] :: code_units_of_bytes rest1 in
      if (Ascii.N_of_ascii b1 <? 128)%N then alone
      else
        match rest1 with
        | [] => alone
        | b2 :: rest2 =>
            if lead_in 192 224 b1 && is_continuation b2 then
              bytes_to_string [b1; b2] :: code_units_of_bytes rest2
            else
              match rest2 with
              | [] => alone
              | b3 :: rest3 =>
                  if lead_in 224 240 b1 && is_continuation b2
                     && is_continuation b3 then
                    bytes_to_string [b1; b2; b3] :: code_units_of_bytes rest3
                  else
                    match rest3 with
                    | [] => alone
                    | b4 :: rest4 =>
                        if lead_in 240 248 b1 && is_continuation b2
                           && is_continuation b3 && is_continuation b4 then
                          three_bytes (high_surrogate (code_point_4 b1 b2 b3 b4))
                          :: three_bytes (low_surrogate (code_point_4 b1 b2 b3 b4))
                          :: code_units_of_bytes rest4
                        else alone
                    end
              end
        end
  end.

Definition code_units (s : string) : list string :=
  code_units_of_bytes (String.list_ascii_of_string s).

(** Object spread [{ ...v }]: the own enumerable properties of [v].
    [undefined] (here [None]), [null], booleans and numbers contribute
    nothing; arrays contribute their elements and strings their code units
    under the decimal index. *)
Definition indexed (items : list Json) : JsObject :=
  list_to_map (imap (fun i v => (pretty i, v)) items).

Definition own_properties (v : option Json) : JsObject :=
  match v with
  | Some (JObj fields) => fields
  | Some (JArr items) => indexed items
  | Some (JStr s) => indexed (JStr <$> code_units s)
  | Some JNull | Some (JBool _) | Some (JNum _) | None => ∅
  end.

(** [{ ...o, ...v }]: the properties of [v] win over those of [o]. *)
Definition spread (v : option Json) (o : JsObject) : JsObject :=
  own_properties v ∪ o.

(** [cond && { ... }]: the object when [cond] holds, [false] otherwise. *)
Definition js_and (cond : bool) (o : JsObject) : option Json :=
  Some (if cond then JObj o else JBool false).

(** The source object of an event: a union tagged by [__typename]. *)
Inductive SourceTypename : Type := Checkout | Order.

#[global] Instance SourceTypename_eq_dec : EqDecision SourceTypename.
Proof. solve_decision. Defined.

Record Money : Type := mkMoney { amount : float; currency : string }.

Record SourceObject : Type := mkSourceObject {
  __typename : SourceTypename;
  id : string;                    (* sourceObject.id *)
  total_gross : Money;            (* sourceObject.total.gross *)
  channel_id : string             (* sourceObject.channel.id *)
}.

(** [TransactionInitializeSessionEventFragment] (and the process-session
    fragment, which has the same fields as far as the mappers read them).
    [data] is the event's JSON payload, which the mappers cast without a
    check: any JSON value, or nothing at all ([undefined], here [None]). *)
Record TransactionSessionEvent : Type := mkEvent {
  data : option Json;
  sourceObject : SourceObject;
  action_actionType : TransactionFlowStrategyEnum;   (* action.actionType *)
  transaction_id : string                            (* transaction.id *)
}.

Section Mapper.

(** [getStripeAmountFromSaleorMoney] of [./currencies] lies outside the
    sources embedded here; the mappers are parametric in it. *)
Variable getStripeAmountFromSaleorMoney : Money -> float.

Definition capture_method_of (actionType : TransactionFlowStrategyEnum)
  : string :=
  if decide (actionType = Charge) then "automatic" else "manual".

(** The property read [data.metadata].  On [null] and [undefined] it throws
    a [TypeError] (the message is the engine's); on an object it yields the
    property, [undefined] when there is none; a boolean, a number, a string
    or an array has no property of that name. *)
Definition nullish (v : option Json) : bool :=
  match v with
  | None | Some JNull => true
  | Some _ => false
  end.

Definition data_metadata (data : option Json) : Result (option Json) :=
  match data with
  | None =>
      Thrown (mkError TypeError
                "Cannot read properties of undefined (reading 'metadata')")
  | Some JNull =>
      Thrown (mkError TypeError
                "Cannot read properties of null (reading 'metadata')")
  | Some (JObj fields) => Returned (fields !! "metadata")
  | Some (JBool _) | Some (JNum _) | Some (JStr _) | Some (JArr _) =>
      Returned None
  end.

(** The [metadata: { ... }] literal shared by both mappers, [metadata]
    being what [data.metadata] gave. *)
Definition request_metadata (metadata : option Json)
    (event : TransactionSessionEvent) : JsObject :=
  let so := sourceObject event in
  let m : JsObject := spread metadata ∅ in
  let m := <["transactionId" := JStr (transaction_id event)]> m in
  let m := <["channelId" := JStr (channel_id so)]> m in
  let m := spread (js_and (bool_decide (__typename so = Checkout))
                          {["checkoutId" := JStr (id so)]}) m in
  let m := spread (js_and (bool_decide (__typename so = Order))
                          {["orderId" := JStr (id so)]}) m in
  m.

(** Both mappers build one object literal, left to right: the spread of
    [data] (which tolerates [null] and [undefined]), the fields the mapper
    sets, and last the metadata, where reading [data.metadata] may throw. *)
Definition transactionSessionInitializeEventToStripeCreate
    (event : TransactionSessionEvent) : Result JsObject :=
  let data := data event in
  let so := sourceObject event in
  let r : JsObject := spread data ∅ in
  let r := <["amount" :=
               JNum (getStripeAmountFromSaleorMoney
                       {| amount := amount (total_gross so);
                          currency := currency (total_gross so) |})]> r in
  let r := <["currency" := JStr (currency (total_gross so))]> r in
  let r := <["automatic_payment_methods" :=
               JObj {["enabled" := JBool true]}]> r in
  let r := <["capture_method" :=
               JStr (capture_method_of (action_actionType event))]> r in
  match data_metadata data with
  | Thrown e => Thrown e
  | Returned metadata =>
      Returned (<["metadata" := JObj (request_metadata metadata event)]> r)
  end.

Definition transactionSessionProcessEventToStripeUpdate
    (event : TransactionSessionEvent) : Result JsObject :=
  let data := data event in
  let so := sourceObject event in
  let r : JsObject := spread data ∅ in
  let r := <["amount" :=
               JNum (getStripeAmountFromSaleorMoney
                       {| amount := amount (total_gross so);
                          currency := currency (total_gross so) |})]> r in
  let r := <["currency" := JStr (currency (total_gross so))]> r in
  let r := <["capture_method" :=
               JStr (capture_method_of (action_actionType event))]> r in
  match data_metadata data with
  | Thrown e => Thrown e
  | Returned metadata =>
      Returned (<["metadata" := JObj (request_metadata metadata event)]> r)
  end.

End Mapper.

(** The top-level keys the create mapper writes after spreading [data], and
    the metadata keys it writes after spreading [data.metadata]. *)
Definition create_written_keys : list string :=
  ["amount"; "currency"; "automatic_payment_methods"; "capture_method";
   "metadata"].

Definition update_written_keys : list string :=
  ["amount"; "currency"; "capture_method"; "metadata"].

Definition source_id_key (t : SourceTypename) : string :=
  match t with Checkout => "checkoutId" | Order => "orderId" end.

Definition other_source_id_key (t : SourceTypename) : string :=
  match t with Checkout => "orderId" | Order => "checkoutId" end.

Definition metadata_written_keys (t : SourceTypename) : list string :=
  ["transactionId"; "channelId"; source_id_key t].

(* ===================================================================== *)
(** ** The stored aggregate *)
(* ===================================================================== *)

(** A configuration entry as a reader of the store sees it: each field is
    a string, or reads as [undefined] ([None]).  The stored record is JSON,
    which has no property with the value [undefined], so for a stored entry
    [None] is an absent field. *)
Record ConfigEntry : Type := mkConfigEntry {
  configurationId : string;
  configurationName : option string;
  secretKey : option string;
  publishableKey : option string;
  webhookId : option string;
  webhookSecret : option string
}.

#[global] Instance ConfigEntry_eq_dec : EqDecision ConfigEntry.
Proof. solve_decision. Defined.

(** A property of an object that is spread over another one: absent, or
    present with a value, which may be [undefined] ([Present None]).  The
    spread copies every present property, whatever its value. *)
Inductive Property (A : Type) : Type :=
| Absent
| Present (value : option A).
Arguments Absent {A}.
Arguments Present {A} value.

(** [{ ...{ p: prior }, ...{ p?: supplied } }.p] *)
Definition overlay {A} (supplied : Property A) (prior : option A) : option A :=
  match supplied with
  | Absent => prior
  | Present value => value
  end.

(** Reading a property: [undefined] when it is absent. *)
Definition read {A} (p : Property A) : option A := overlay p None.

(** [AdyenEntryConfigUpdate], the payload of [setConfigEntry]: the id and
    any of the other properties. *)
Record AdyenEntryConfigUpdate : Type := mkPayload {
  new_configurationId : string;
  new_configurationName : Property string;
  new_secretKey : Property string;
  new_publishableKey : Property string;
  new_webhookId : Property string;
  new_webhookSecret : Property string
}.

(** [{ ...existingEntry, ...newConfiguration }]: every property present in
    the second object wins, also one whose value is [undefined]. *)
Definition merge_entries (existingEntry : ConfigEntry)
    (newConfiguration : AdyenEntryConfigUpdate) : ConfigEntry :=
  {| configurationId := new_configurationId newConfiguration;
     configurationName :=
       overlay (new_configurationName newConfiguration)
               (configurationName existingEntry);
     secretKey := overlay (new_secretKey newConfiguration) (secretKey existingEntry);
     publishableKey :=
       overlay (new_publishableKey newConfiguration) (publishableKey existingEntry);
     webhookId := overlay (new_webhookId newConfiguration) (webhookId existingEntry);
     webhookSecret :=
       overlay (new_webhookSecret newConfiguration) (webhookSecret existingEntry) |}.

(** [newConfiguration as AdyenEntryConfig]: the payload taken as an entry. *)
Definition as_entry (newConfiguration : AdyenEntryConfigUpdate) : ConfigEntry :=
  {| configurationId := new_configurationId newConfiguration;
     configurationName := read (new_configurationName newConfiguration);
     secretKey := read (new_secretKey newConfiguration);
     publishableKey := read (new_publishableKey newConfiguration);
     webhookId := read (new_webhookId newConfiguration);
     webhookSecret := read (new_webhookSecret newConfiguration) |}.

(** An entry given as a payload: the fields it has are present, the others
    absent. *)
Definition present_if_some {A} (field : option A) : Property A :=
  match field with
  | Some v => Present (Some v)
  | None => Absent
  end.

Definition as_payload (entry : ConfigEntry) : AdyenEntryConfigUpdate :=
  {| new_configurationId := configurationId entry;
     new_configurationName := present_if_some (configurationName entry);
     new_secretKey := present_if_some (secretKey entry);
     new_publishableKey := present_if_some (publishableKey entry);
     new_webhookId := present_if_some (webhookId entry);
     new_webhookSecret := present_if_some (webhookSecret entry) |}.

(** The merge of partial records in [merge_write] below. *)
Definition or_else {A} (supplied prior : option A) : option A :=
  match supplied with Some v => Some v | None => prior end.

(** [ChannelMapping]: a JavaScript object used as a map from channel id to
    configuration id. *)
Abbreviation ChannelMapping := (gmap string string).

Record AppConfig : Type := mkAppConfig {
  configurations : list ConfigEntry;
  channelToConfigurationId : ChannelMapping
}.

(** [Partial<AppConfig>]: what [setConfig] receives and what the backend
    holds (a record that was never written has no field). *)
Record PartialAppConfig : Type := mkPartial {
  p_configurations : option (list ConfigEntry);
  p_channelToConfigurationId : option ChannelMapping
}.

Definition no_record : PartialAppConfig := mkPartial None None.

(** Modelled from the spec: the config schema ([adyenAppConfigSchema] of
    [./app-config], which lies outside the sources embedded here).  Parsing applies the
    defaults, an empty configuration list and an empty mapping, to absent
    fields.  A stored record is held at its type here, so the rejection of
    structurally invalid records has no counterpart. *)
Definition schema_parse (stored : PartialAppConfig) : AppConfig :=
  {| configurations := default [] (p_configurations stored);
     channelToConfigurationId := default ∅ (p_channelToConfigurationId stored) |}.

(** Modelled from the spec: the merge-write of
    [PrivateMetadataAppConfigurator.setConfig] (of
    [../app-configuration/app-configuration], which lies outside the sources
    embedded here).  Without [replace] the fields present in the partial replace
    the stored ones and the others are kept; with [replace] the partial
    becomes the stored record. *)
Definition merge_write (stored newConfig : PartialAppConfig) (replace : bool)
  : PartialAppConfig :=
  if replace then newConfig
  else {| p_configurations :=
            or_else (p_configurations newConfig) (p_configurations stored);
          p_channelToConfigurationId :=
            or_else (p_channelToConfigurationId newConfig)
                    (p_channelToConfigurationId stored) |}.

(* ===================================================================== *)
(** ** Effects: the backend, the collaborators and the call log *)
(* ===================================================================== *)

(** What leaves the process, in order. *)
Inductive Event : Type :=
| CalledPaymentIntentsList (secretKey : string)
| CalledTokensCreate (publishableKey : string)
| CalledCreateStripeWebhook (appUrl secretKey saleorApiUrl : string)
| CalledDeleteStripeWebhook (webhookId secretKey : option string)
| CalledUuidv7
| WroteConfig (newConfig : PartialAppConfig) (replace : bool).

Record World : Type := mkWorld {
  stored : PartialAppConfig;      (* the tenant's record in the backend *)
  log : list Event;               (* oldest first *)
  ids_issued : nat                (* how many ids [uuidv7] has produced *)
}.

(** An asynchronous function of the source, awaited step by step: a state
    transformer that returns or throws.  What a step did before throwing
    stays done. *)
Definition M (A : Type) : Type := World -> Result A * World.

Definition ret {A} (a : A) : M A := fun w => (Returned a, w).
Definition throw {A} (e : Error) : M A := fun w => (Thrown e, w).
Definition bind {A B} (m : M A) (k : A -> M B) : M B :=
  fun w => match m w with
           | (Returned a, w') => k a w'
           | (Thrown e, w') => (Thrown e, w')
           end.
(** [try { body } catch (e) { handler(e) }] *)
Definition try_catch {A} (body : M A) (handler : Error -> M A) : M A :=
  fun w => match body w with
           | (Returned a, w') => (Returned a, w')
           | (Thrown e, w') => handler e w'
           end.
Definition emit (ev : Event) : M unit :=
  fun w => (Returned tt, mkWorld (stored w) (log w ++ [ev]) (ids_issued w)).
Definition lift {A} (r : Result A) : M A := fun w => (r, w).

Declare Scope js_scope.
Delimit Scope js_scope with js.
Notation "x <- m ;; k" := (bind m (fun x => k))
  (at level 100, m at next level, right associativity) : js_scope.
Notation "m ;;; k" := (bind m (fun _ => k))
  (at level 100, right associativity) : js_scope.
Local Open Scope js_scope.

(** How a rejected Stripe call failed: with a [Stripe.errors.StripeError] or
    with something else. *)
Inductive StripeFailure : Type := IsStripeError | NotStripeError.

Record WebhookBinding : Type := mkBinding {
  b_webhookSecret : string;
  b_webhookId : string
}.

(** The collaborators: the Stripe client, [./webhook-manager], [uuidv7] and
    [./utils].  Each answers from its arguments; the webhook provisioner is
    handed the configurator and may read the configuration through it, and
    none of them writes to the tenant's record. *)
Record Collaborators : Type := mkCollaborators {
  (* stripe.paymentIntents.list({ limit: 1 }) with a client for the key *)
  paymentIntents_list : string -> option StripeFailure;
  (* stripe.tokens.create({ pii: ... }) with a client for the key *)
  tokens_create : string -> option StripeFailure;
  (* ./webhook-manager *)
  createStripeWebhook_impl :
    string -> string -> string -> AppConfig -> Result WebhookBinding;
  deleteStripeWebhook_impl : option string -> option string -> Result unit;
  (* uuidv7(): the n-th id it produces *)
  uuidv7_nth : nat -> string;
  (* ./utils *)
  obfuscateConfigEntry : ConfigEntry -> ConfigEntry
}.

(* ===================================================================== *)
(** ** [class AppConfigurator] *)
(* ===================================================================== *)

Module AppConfigurator.

(** [this.configurator.getConfig()] followed by the schema parse. *)
Definition getConfig : M AppConfig :=
  fun w => (Returned (schema_parse (stored w)), w).

(** [this.configurator.setConfig(newConfig, replace)] *)
Definition setConfig (newConfig : PartialAppConfig) (replace : bool) : M unit :=
  emit (WroteConfig newConfig replace) ;;;
  fun w => (Returned tt,
            mkWorld (merge_write (stored w) newConfig replace)
                    (log w) (ids_issued w)).

(** Adds new config entry or updates existing one.  [list_find] gives the
    index [findIndex] returns together with the entry at that index. *)
Definition setConfigEntry (newConfiguration : AdyenEntryConfigUpdate) : M unit :=
  config <- getConfig ;;
  let configurations := configurations config in
  match list_find (fun entry =>
                     configurationId entry = new_configurationId newConfiguration)
                  configurations with
  | Some (existingEntryIndex, existingEntry) =>
      let mergedEntry := merge_entries existingEntry newConfiguration in
      let newConfigurations := <[existingEntryIndex := mergedEntry]> configurations in
      setConfig (mkPartial (Some newConfigurations) None) false
  | None =>
      setConfig (mkPartial
                   (Some (configurations ++ [as_entry newConfiguration])%list)
                   None)
                false
  end.

Definition deleteConfigEntry (id : string) : M unit :=
  oldConfig <- getConfig ;;
  let newConfigurations :=
    filter (fun entry => configurationId entry ≠ id) (configurations oldConfig) in
  let newMappings : ChannelMapping :=
    filter (fun kv : string * string => kv.2 ≠ id)
           (channelToConfigurationId oldConfig) in
  setConfig (mkPartial (Some newConfigurations) (Some newMappings)) true.

(** Adds new mappings or updates existing ones. *)
Definition setMapping (newMapping : ChannelMapping) : M unit :=
  config <- getConfig ;;
  setConfig (mkPartial None (Some (newMapping ∪ channelToConfigurationId config)))
            false.

Definition deleteMapping (channelId : string) : M unit :=
  config <- getConfig ;;
  let newMapping := delete channelId (channelToConfigurationId config) in
  setConfig (mkPartial None (Some newMapping)) false.

Definition clearConfig : M unit :=
  let defaultConfig := schema_parse no_record in
  setConfig (mkPartial (Some (configurations defaultConfig))
                       (Some (channelToConfigurationId defaultConfig))) true.

Section Obfuscated.

Variable ext : Collaborators.

(** The user-visible configuration: every entry through
    [obfuscateConfigEntry], the mapping as it is. *)
Definition getConfigObfuscated : M AppConfig :=
  config <- getConfig ;;
  ret {| configurations := obfuscateConfigEntry ext <$> configurations config;
         channelToConfigurationId := channelToConfigurationId config |}.

End Obfuscated.

End AppConfigurator.

(** The [channelId?: string | undefined | null] argument. *)
Inductive ChannelIdArg : Type :=
| IdUndefined
| IdNull
| IdString (s : string).

(** [!x] on such a value and on a string. *)
Definition falsy_string (s : string) : bool := bool_decide (s = "").

(** Returns the entry or [null] ([None]).  A property read on the mapping
    that finds no own property yields [undefined], or an inherited member of
    [Object.prototype] that is strictly equal to no configuration id: both
    end in [null], and both are the [None] of the map lookup here. *)
Definition getConfigurationForChannel
    (appConfig : AppConfig) (channelId : ChannelIdArg)
  : Result (option ConfigEntry) :=
  match channelId with
  | IdUndefined | IdNull => Returned None
  | IdString channelId =>
      if falsy_string channelId then Returned None
      else
        match channelToConfigurationId appConfig !! channelId with
        | None => Returned None
        | Some configurationId' =>
            if falsy_string configurationId' then Returned None
            else
              match list_find (fun config => configurationId config = configurationId')
                              (configurations appConfig) with
              | None => Returned None
              | Some (_, adyenConfig) => Returned (Some adyenConfig)
              end
        end
  end.

(* ===================================================================== *)
(** ** Key validation ([validateStripeKeys]) *)
(* ===================================================================== *)

Section StripeApi.

Variable ext : Collaborators.

Definition validateStripeKeys (secretKey publishableKey : string) : M unit :=
  if String.prefix "rk_" secretKey then
    throw (mkError RestrictedKeyNotSupportedError
                   "Restricted keys are not supported")
  else
    emit (CalledPaymentIntentsList secretKey) ;;;
    match paymentIntents_list ext secretKey with
    | Some IsStripeError =>
        throw (mkError InvalidSecretKeyError "Provided secret key is invalid")
    | Some NotStripeError =>
        throw (mkError InvalidSecretKeyError
                       "There was an error while checking secret key")
    | None =>
        emit (CalledTokensCreate publishableKey) ;;;
        match tokens_create ext publishableKey with
        | Some IsStripeError =>
            throw (mkError InvalidSecretKeyError
                           "Provided publishable key is invalid")
        | Some NotStripeError =>
            throw (mkError InvalidSecretKeyError
                           "There was an error while checking publishable key")
        | None => ret tt
        end
    end.

End StripeApi.

(** [startsWith] on each of the three live prefixes. *)
Definition getEnvironmentFromKey (secretKeyOrPublishableKey : string) : string :=
  if String.prefix "sk_live_" secretKeyOrPublishableKey
     || String.prefix "pk_live_" secretKeyOrPublishableKey
     || String.prefix "rk_live_" secretKeyOrPublishableKey
  then "live" else "test".

(* ===================================================================== *)
(** ** Entry lifecycle ([config-manager.ts]) *)
(* ===================================================================== *)

(** [PaymentAppFormConfigEntry]: what the form submits for a new entry. *)
Record FormConfigEntry : Type := mkForm {
  form_configurationName : string;
  form_secretKey : string;
  form_publishableKey : string
}.

(** [ConfigEntryUpdate] of [./input-schemas]: the id of the entry to change
    and [entry], an object with any of the other properties. *)
Record EntryFields : Type := mkFields {
  fld_configurationName : Property string;
  fld_secretKey : Property string;
  fld_publishableKey : Property string;
  fld_webhookId : Property string;
  fld_webhookSecret : Property string
}.

Record ConfigEntryUpdate : Type := mkUpdate {
  upd_entry : EntryFields;
  upd_configurationId : string
}.

(** [{ ...entry, configurationId }] *)
Definition fields_with_id (entry : EntryFields) (configurationId : string)
  : AdyenEntryConfigUpdate :=
  {| new_configurationId := configurationId;
     new_configurationName := fld_configurationName entry;
     new_secretKey := fld_secretKey entry;
     new_publishableKey := fld_publishableKey entry;
     new_webhookId := fld_webhookId entry;
     new_webhookSecret := fld_webhookSecret entry |}.

(** [{ ...existingEntry, ...entry }] *)
Definition entry_with_fields (existingEntry : ConfigEntry) (entry : EntryFields)
  : ConfigEntry :=
  {| configurationId := configurationId existingEntry;
     configurationName :=
       overlay (fld_configurationName entry) (configurationName existingEntry);
     secretKey := overlay (fld_secretKey entry) (secretKey existingEntry);
     publishableKey :=
       overlay (fld_publishableKey entry) (publishableKey existingEntry);
     webhookId := overlay (fld_webhookId entry) (webhookId existingEntry);
     webhookSecret :=
       overlay (fld_webhookSecret entry) (webhookSecret existingEntry) |}.

Module ConfigManager.
Section WithConfigurator.

Variable ext : Collaborators.
(** [configurator.saleorApiUrl] *)
Variable saleorApiUrl : string.

(** The calls into [./webhook-manager] and [uuidv7], logged. *)
Definition createStripeWebhook (appUrl secretKey : string) : M WebhookBinding :=
  emit (CalledCreateStripeWebhook appUrl secretKey saleorApiUrl) ;;;
  config <- AppConfigurator.getConfig ;;
  lift (createStripeWebhook_impl ext appUrl secretKey saleorApiUrl config).

Definition deleteStripeWebhook (webhookId secretKey : option string) : M unit :=
  emit (CalledDeleteStripeWebhook webhookId secretKey) ;;;
  lift (deleteStripeWebhook_impl ext webhookId secretKey).

Definition uuidv7 : M string :=
  emit CalledUuidv7 ;;;
  fun w => (Returned (uuidv7_nth ext (ids_issued w)),
            mkWorld (stored w) (log w) (S (ids_issued w))).

Definition getAllConfigEntriesDecrypted : M (list ConfigEntry) :=
  config <- AppConfigurator.getConfig ;;
  ret (configurations config).

Definition not_found_message (configurationId : string) : string :=
  "Entry with id " ++ configurationId ++ " was not found".

Definition getConfigEntryDecrypted (configurationId' : string) : M ConfigEntry :=
  entries <- getAllConfigEntriesDecrypted ;;
  match list_find (fun entry => configurationId entry = configurationId') entries with
  | None => throw (mkError EntryNotFoundError (not_found_message configurationId'))
  | Some (_, entry) => ret entry
  end.

Definition addConfigEntry (newConfigEntry : FormConfigEntry) (appUrl : string)
  : M ConfigEntry :=
  validateStripeKeys ext (form_secretKey newConfigEntry)
                         (form_publishableKey newConfigEntry) ;;;
  binding <- createStripeWebhook appUrl (form_secretKey newConfigEntry) ;;
  uuid <- uuidv7 ;;
  let config :=
    {| new_configurationName :=
         Present (Some (form_configurationName newConfigEntry));
       new_secretKey := Present (Some (form_secretKey newConfigEntry));
       new_publishableKey := Present (Some (form_publishableKey newConfigEntry));
       new_webhookSecret := Present (Some (b_webhookSecret binding));
       new_webhookId := Present (Some (b_webhookId binding));
       new_configurationId := uuid |} in
  AppConfigurator.setConfigEntry config ;;;
  ret (obfuscateConfigEntry ext (as_entry config)).

Definition deleteConfigEntry (configurationId' : string) : M unit :=
  entries <- getAllConfigEntriesDecrypted ;;
  match list_find (fun entry => configurationId entry = configurationId') entries with
  | None => throw (mkError EntryNotFoundError (not_found_message configurationId'))
  | Some (_, existingEntry) =>
      let otherEntries :=
        filter (fun entry => configurationId entry ≠ configurationId') entries in
      let isWebhookUsed :=
        bool_decide (Exists (fun entry => webhookId entry = webhookId existingEntry)
                            otherEntries) in
      (if negb isWebhookUsed then
         try_catch (deleteStripeWebhook (webhookId existingEntry)
                                        (secretKey existingEntry))
                   (fun e => ret tt)   (* Ignore error *)
       else ret tt) ;;;
      AppConfigurator.deleteConfigEntry configurationId'
  end.

Definition getAllConfigEntriesObfuscated : M (list ConfigEntry) :=
  config <- AppConfigurator.getConfigObfuscated ext ;;
  ret (configurations config).

Definition getConfigEntryObfuscated (configurationId' : string) : M ConfigEntry :=
  entries <- getAllConfigEntriesObfuscated ;;
  match list_find (fun entry => configurationId entry = configurationId') entries with
  | None => throw (mkError EntryNotFoundError (not_found_message configurationId'))
  | Some (_, entry) => ret entry
  end.

Definition updateConfigEntry (input : ConfigEntryUpdate) : M ConfigEntry :=
  let entry := upd_entry input in
  let configurationId := upd_configurationId input in
  existingEntry <- getConfigEntryDecrypted configurationId ;;
  AppConfigurator.setConfigEntry (fields_with_id entry configurationId) ;;;
  ret (obfuscateConfigEntry ext (entry_with_fields existingEntry entry)).

End WithConfigurator.
End ConfigManager.

(** The entries and the mapping a reader of the backend sees. *)
Definition visible (w : World) : AppConfig := schema_parse (stored w).

(** The events a call added to the log. *)
Definition new_events (before after : World) : list Event :=
  drop (length (log before)) (log after).

(** The backend writes among some events, and the calls to the webhook
    provisioner. *)
Definition writes (evs : list Event) : list (PartialAppConfig * bool) :=
  omap (fun ev => match ev with
                  | WroteConfig newConfig replace => Some (newConfig, replace)
                  | _ => None
                  end) evs.

Definition webhook_deletions (evs : list Event)
  : list (option string * option string) :=
  omap (fun ev => match ev with
                  | CalledDeleteStripeWebhook webhookId secretKey =>
                      Some (webhookId, secretKey)
                  | _ => None
                  end) evs.

Definition webhook_creations (evs : list Event) : list (string * string * string) :=
  omap (fun ev => match ev with
                  | CalledCreateStripeWebhook appUrl secretKey saleorApiUrl =>
                      Some (appUrl, secretKey, saleorApiUrl)
                  | _ => None
                  end) evs.

(** The world once the webhook provisioner has been asked to delete the
    webhook of [entry]: one more event, nothing else. *)
Definition after_webhook_deletion (entry : ConfigEntry) (w : World) : World :=
  mkWorld (stored w)
          (log w ++ [CalledDeleteStripeWebhook (webhookId entry) (secretKey entry)])
          (ids_issued w).

(** [entry] is the entry [find] / [findIndex] stops at for [id]: the first
    one, at index [i], whose configuration id is [id]. *)
Definition first_with_id (id : string) (entries : list ConfigEntry)
    (i : nat) (entry : ConfigEntry) : Prop :=
  entries !! i = Some entry
  /\ configurationId entry = id
  /\ forall j other, entries !! j = Some other -> j < i ->
                     configurationId other <> id.

(** Some entry other than those with configuration id [id] has the webhook
    of [entry]. *)
Definition webhook_shared (id : string) (entries : list ConfigEntry)
    (entry : ConfigEntry) : Prop :=
  exists other, other ∈ entries
                /\ configurationId other <> id
                /\ webhookId other = webhookId entry.

(** Invariants of the stored aggregate: no two entries share a
    configuration id, and every channel is mapped to the id of some entry. *)
Definition unique_ids (config : AppConfig) : Prop :=
  NoDup (configurationId <$> configurations config).

Definition mappings_resolve (config : AppConfig) : Prop :=
  forall channel target,
    channelToConfigurationId config !! channel = Some target ->
    exists e, e ∈ configurations config /\ configurationId e = target.

(** The result of a call, the world after it, and one call after another. *)
Definition result_of {A} (m : M A) (w : World) : Result A := (m w).1.
Definition world_after {A} (m : M A) (w : World) : World := (m w).2.

(** The non-id fields, by name: the property of a payload and the field of
    an entry. *)
Definition entry_fields
  : list ((AdyenEntryConfigUpdate -> Property string)
          * (ConfigEntry -> option string)) :=
  [ (new_configurationName, configurationName); (new_secretKey, secretKey);
    (new_publishableKey, publishableKey); (new_webhookId, webhookId);
    (new_webhookSecret, webhookSecret) ].

(** The same for the [entry] of an update. *)
Definition update_fields
  : list ((EntryFields -> Property string) * (ConfigEntry -> option string)) :=
  [ (fld_configurationName, configurationName); (fld_secretKey, secretKey);
    (fld_publishableKey, publishableKey); (fld_webhookId, webhookId);
    (fld_webhookSecret, webhookSecret) ].

(* ===================================================================== *)
(** ** Sample inputs *)
(* ===================================================================== *)

Module Samples.

(** A major-unit to minor-unit conversion to run the mappers with: times one
    hundred, rounded by the caller.  Only its being a function matters. *)
Definition times_hundred (m : Money) : float := (amount m * 100)%float.

(** A Checkout event whose caller-supplied [data] already carries
    [automatic_payment_methods] and an [orderId] in its metadata. *)
Definition checkout_event_with_caller_fields : TransactionSessionEvent :=
  {| data :=
       Some (JObj
         {[ "automatic_payment_methods" := JObj {[ "enabled" := JBool false ]};
            "metadata" := JObj {[ "orderId" := JStr "order-from-caller" ]};
            "description" := JStr "basket" ]});
     sourceObject :=
       {| __typename := Checkout;
          id := "checkout-1";
          total_gross := {| amount := 222.99%float; currency := "USD" |};
          channel_id := "channel-1" |};
     action_actionType := Charge;
     transaction_id := "tx-1" |}.

(** Collaborators that reject the keys and the webhooks named "bad". *)
Definition ext : Collaborators :=
  {| paymentIntents_list := fun key =>
       if decide (key = "sk_test_bad") then Some IsStripeError else None;
     tokens_create := fun key =>
       if decide (key = "pk_test_bad") then Some IsStripeError else None;
     createStripeWebhook_impl := fun appUrl key saleorApiUrl config =>
       if decide (key = "sk_test_nohook") then
         Thrown (mkError UpstreamError "webhook endpoint creation failed")
       else Returned {| b_webhookSecret := "whsec_1"; b_webhookId := "we_1" |};
     deleteStripeWebhook_impl := fun webhook key =>
       if decide (webhook = Some "we_bad") then
         Thrown (mkError UpstreamError "No such webhook endpoint")
       else Returned tt;
     uuidv7_nth := fun n => "0190-" ++ pretty n;
     obfuscateConfigEntry := fun entry =>
       let mask := fmap (fun _ : string => "****") in
       mkConfigEntry (configurationId entry) (configurationName entry)
                     (mask (secretKey entry)) (mask (publishableKey entry))
                     (webhookId entry) (mask (webhookSecret entry)) |}.

Definition saleorApiUrl : string := "https://shop.example/graphql/".

Definition entry (id name key webhook : string) : ConfigEntry :=
  {| configurationId := id;
     configurationName := Some name;
     secretKey := Some ("sk_test_" ++ key);
     publishableKey := Some ("pk_test_" ++ key);
     webhookId := Some webhook;
     webhookSecret := Some ("whsec_" ++ webhook) |}.

(** Entries [a] and [b] share a webhook, [c] has its own, which the
    provisioner fails to delete. *)
Definition three_entries : World :=
  {| stored :=
       {| p_configurations :=
            Some [entry "a" "first" "1" "we_1"; entry "b" "second" "1" "we_1";
                  entry "c" "third" "2" "we_bad"];
          p_channelToConfigurationId :=
            Some {[ "ch-1" := "a"; "ch-2" := "b"; "ch-3" := "c"; "ch-4" := "c" ]} |};
     log := [];
     ids_issued := 0 |}.

Definition empty_world : World :=
  {| stored := no_record; log := []; ids_issued := 0 |}.

End Samples.

(* ===================================================================== *)
(** * Properties *)
(* ===================================================================== *)

(** ** Result translation *)

Lemma status_suffix_handled status suffix :
  status_suffix status = Some suffix -> status ∈ handled_statuses.
Proof.
  unfold status_suffix, handled_statuses. intros Hs.
  repeat case_bool_decide; try discriminate; subst;
    rewrite ?elem_of_cons, ?elem_of_nil in *; naive_solver.
Qed.

Lemma handled_status_has_suffix status :
  status ∈ handled_statuses -> is_Some (status_suffix status).
Proof.
  unfold handled_statuses. intros Hin.
  repeat (apply elem_of_cons in Hin as [-> | Hin]; [by eexists |]).
  by apply elem_of_nil in Hin.
Qed.

(** C1. Under the strategies Authorization and Charge, a status of the
    translation table is mapped to the strategy's prefix followed by the
    table's suffix; in particular (Authorization, requires_action) gives
    AUTHORIZATION_ACTION_REQUIRED, (Charge, succeeded) gives CHARGE_SUCCESS
    and (Charge, canceled) gives CHARGE_FAILURE. *)
Theorem translation_follows_table :
  (forall strategy status prefix suffix,
      strategy_prefix strategy = Some prefix ->
      status_suffix status = Some suffix ->
      stripePaymentIntentToTransactionResult strategy status
      = Returned (Some (prefix ++ suffix)))
  /\ stripePaymentIntentToTransactionResult Authorization "requires_action"
     = Returned (Some "AUTHORIZATION_ACTION_REQUIRED")
  /\ stripePaymentIntentToTransactionResult Charge "succeeded"
     = Returned (Some "CHARGE_SUCCESS")
  /\ stripePaymentIntentToTransactionResult Charge "canceled"
     = Returned (Some "CHARGE_FAILURE")
  /\ (forall strategy prefix,
        strategy_prefix strategy = Some prefix ->
        stripePaymentIntentToTransactionResult strategy "requires_payment_method"
        = Returned (Some (prefix ++ "_REQUESTED"))
        /\ stripePaymentIntentToTransactionResult strategy "processing"
           = Returned (Some (prefix ++ "_REQUESTED"))
        /\ stripePaymentIntentToTransactionResult strategy "requires_capture"
           = Returned (Some (prefix ++ "_ACTION_REQUIRED"))
        /\ stripePaymentIntentToTransactionResult strategy "requires_confirmation"
           = Returned (Some (prefix ++ "_ACTION_REQUIRED"))).
Proof.
  split; [| split; [done | split; [done | split; [done |]]]].
  - intros strategy status prefix suffix Hp Hs.
    pose proof (status_suffix_handled _ _ Hs) as Hin.
    unfold handled_statuses in Hin.
    destruct strategy; simplify_eq/=;
      repeat (apply elem_of_cons in Hin as [-> | Hin];
              [vm_compute in Hs; by simplify_eq |]);
      by apply elem_of_nil in Hin.
  - intros strategy prefix Hp. by destruct strategy; simplify_eq/=.
Qed.

Lemma translation_follows_table_witness :
  stripePaymentIntentToTransactionResult Authorization "processing"
  = Returned (Some ("AUTHORIZATION" ++ "_REQUESTED")).
Proof.
  apply (proj1 translation_follows_table Authorization "processing");
    reflexivity.
Defined.

(** C2, as stated, fails: a status outside the handled ones makes the
    function fall off the end of its switch and return no value; nothing is
    thrown. *)
Lemma unhandled_status_returns_undefined :
  ("requires_source" ∉ handled_statuses)
  /\ stripePaymentIntentToTransactionResult Charge "requires_source"
     = Returned None
  /\ ~ (forall strategy status,
          status ∉ handled_statuses ->
          exists e, stripePaymentIntentToTransactionResult strategy status
                    = Thrown e).
Proof.
  assert (Hout : "requires_source" ∉ handled_statuses).
  { unfold handled_statuses. intros Hin.
    repeat (apply elem_of_cons in Hin as [? | Hin]; [discriminate |]).
    by apply elem_of_nil in Hin. }
  split; [exact Hout | split; [reflexivity |]].
  intros Hclaim. destruct (Hclaim Charge _ Hout) as [e He]. discriminate.
Qed.

(** C2, amended. For a status outside the seven handled ones the function
    returns no value (undefined) under Authorization and under Charge, and
    throws nothing; the only failure it signals is the invariant on a
    strategy other than these two, whatever the status. *)
Theorem unhandled_status_yields_no_value :
  (forall strategy status,
      is_Some (strategy_prefix strategy) ->
      status ∉ handled_statuses ->
      stripePaymentIntentToTransactionResult strategy status = Returned None)
  /\ (forall raw status,
        exists msg,
          stripePaymentIntentToTransactionResult (OtherStrategy raw) status
          = Thrown (mkError InvariantError msg)).
Proof.
  split.
  - intros strategy status [prefix Hp] Hout.
    unfold handled_statuses in Hout.
    unfold stripePaymentIntentToTransactionResult.
    destruct strategy; simplify_eq/=.
    all: repeat (case_decide; [subst; exfalso; apply Hout; set_solver |]).
    all: done.
  - intros raw status. by eexists.
Qed.

Lemma unhandled_status_yields_no_value_witness :
  stripePaymentIntentToTransactionResult Authorization "unknown" = Returned None.
Proof.
  apply (proj1 unhandled_status_yields_no_value Authorization "unknown").
  - by eexists.
  - unfold handled_statuses. intros Hin.
    repeat (apply elem_of_cons in Hin as [? | Hin]; [discriminate |]).
    by apply elem_of_nil in Hin.
Defined.

(** ** Request construction *)

Section MapperFacts.

Variable conv : Money -> float.

Lemma request_metadata_lookup metadata event k :
  request_metadata metadata event !! k =
    if decide (k = source_id_key (__typename (sourceObject event))) then
      Some (JStr (id (sourceObject event)))
    else if decide (k = "channelId") then
      Some (JStr (channel_id (sourceObject event)))
    else if decide (k = "transactionId") then
      Some (JStr (transaction_id event))
    else own_properties metadata !! k.
Proof.
  unfold request_metadata, spread, js_and.
  destruct (__typename (sourceObject event)); simpl;
    rewrite ?(left_id_L ∅ (∪)), ?(right_id_L ∅ (∪));
    rewrite <- insert_union_singleton_l;
    repeat case_decide; subst; simplify_map_eq; done.
Qed.

Lemma data_metadata_returns data :
  nullish data = false -> exists metadata, data_metadata data = Returned metadata.
Proof. destruct data as [[] |]; simpl; intros; try discriminate; by eexists. Qed.

Lemma data_metadata_throws data :
  nullish data = true ->
  exists e, data_metadata data = Thrown e /\ class e = TypeError.
Proof. destruct data as [[] |]; simpl; intros; try discriminate; by eexists. Qed.

(** The create mapper, once [data.metadata] has been read. *)
Lemma create_run event metadata :
  data_metadata (data event) = Returned metadata ->
  transactionSessionInitializeEventToStripeCreate conv event
  = Returned
      (<["metadata" := JObj (request_metadata metadata event)]>
         (<["capture_method" := JStr (capture_method_of (action_actionType event))]>
            (<["automatic_payment_methods" := JObj {["enabled" := JBool true]}]>
               (<["currency" := JStr (currency (total_gross (sourceObject event)))]>
                  (<["amount" := JNum (conv (total_gross (sourceObject event)))]>
                     (own_properties (data event))))))).
Proof.
  intros Hread. unfold transactionSessionInitializeEventToStripeCreate, spread.
  rewrite Hread, (right_id_L ∅ (∪)).
  by destruct (total_gross (sourceObject event)).
Qed.

Lemma update_run event metadata :
  data_metadata (data event) = Returned metadata ->
  transactionSessionProcessEventToStripeUpdate conv event
  = Returned
      (<["metadata" := JObj (request_metadata metadata event)]>
         (<["capture_method" := JStr (capture_method_of (action_actionType event))]>
            (<["currency" := JStr (currency (total_gross (sourceObject event)))]>
               (<["amount" := JNum (conv (total_gross (sourceObject event)))]>
                  (own_properties (data event)))))).
Proof.
  intros Hread. unfold transactionSessionProcessEventToStripeUpdate, spread.
  rewrite Hread, (right_id_L ∅ (∪)).
  by destruct (total_gross (sourceObject event)).
Qed.

Lemma mappers_throw event e :
  data_metadata (data event) = Thrown e ->
  transactionSessionInitializeEventToStripeCreate conv event = Thrown e
  /\ transactionSessionProcessEventToStripeUpdate conv event = Thrown e.
Proof.
  intros Hread.
  unfold transactionSessionInitializeEventToStripeCreate,
    transactionSessionProcessEventToStripeUpdate.
  by rewrite Hread.
Qed.

End MapperFacts.

(** C7, as stated, fails on two counts: the create mapper also overwrites a
    caller-supplied [automatic_payment_methods], a key outside the ones the
    claim lists, and caller metadata carrying [orderId] leaves a Checkout
    request with both [checkoutId] and [orderId]. *)
Lemma create_overwrites_automatic_payment_methods :
  exists request metadata,
    transactionSessionInitializeEventToStripeCreate Samples.times_hundred
      Samples.checkout_event_with_caller_fields
    = Returned request
    /\ own_properties (data Samples.checkout_event_with_caller_fields)
         !! "automatic_payment_methods"
       = Some (JObj {[ "enabled" := JBool false ]})
    /\ request !! "automatic_payment_methods"
       = Some (JObj {[ "enabled" := JBool true ]})
    /\ request !! "automatic_payment_methods"
       <> own_properties (data Samples.checkout_event_with_caller_fields)
            !! "automatic_payment_methods"
    /\ request !! "metadata" = Some (JObj metadata)
    /\ metadata !! "checkoutId" = Some (JStr "checkout-1")
    /\ metadata !! "orderId" = Some (JStr "order-from-caller").
Proof.
  eexists _, _. split; [reflexivity |].
  repeat apply conj; try reflexivity.
  intros Heq.
  apply (f_equal (fun o : option Json =>
                    match o with
                    | Some (JObj fields) => fields !! "enabled"
                    | _ => None
                    end)) in Heq.
  vm_compute in Heq. discriminate.
Qed.

(** C7, amended. For an event whose data is neither null nor undefined the
    create mapper returns a request with capture_method automatic under
    Charge and manual under Authorization; amount, currency and
    automatic_payment_methods ({enabled: true}) are set by the mapper; its
    metadata holds the transaction id, the channel id and the source
    object's id under checkoutId (Checkout) or orderId (Order); every other
    metadata key, the other of these two included, is exactly what the
    caller's data.metadata spreads to, and every request field other than
    amount, currency, automatic_payment_methods, capture_method and metadata
    is what the caller's data spreads to. *)
Theorem create_request_shape (conv : Money -> float) (event : TransactionSessionEvent) :
  nullish (data event) = false ->
  exists request callerMetadata metadata,
    transactionSessionInitializeEventToStripeCreate conv event = Returned request
    /\ data_metadata (data event) = Returned callerMetadata
    /\ (action_actionType event = Charge ->
        request !! "capture_method" = Some (JStr "automatic"))
    /\ (action_actionType event = Authorization ->
        request !! "capture_method" = Some (JStr "manual"))
    /\ request !! "amount" = Some (JNum (conv (total_gross (sourceObject event))))
    /\ request !! "currency"
       = Some (JStr (currency (total_gross (sourceObject event))))
    /\ request !! "automatic_payment_methods"
       = Some (JObj {[ "enabled" := JBool true ]})
    /\ request !! "metadata" = Some (JObj metadata)
    /\ metadata !! "transactionId" = Some (JStr (transaction_id event))
    /\ metadata !! "channelId" = Some (JStr (channel_id (sourceObject event)))
    /\ metadata !! source_id_key (__typename (sourceObject event))
       = Some (JStr (id (sourceObject event)))
    /\ metadata !! other_source_id_key (__typename (sourceObject event))
       = own_properties callerMetadata
           !! other_source_id_key (__typename (sourceObject event))
    /\ (forall k, k ∉ metadata_written_keys (__typename (sourceObject event)) ->
          metadata !! k = own_properties callerMetadata !! k)
    /\ (forall k, k ∉ create_written_keys ->
          request !! k = own_properties (data event) !! k).
Proof.
  intros Hdata.
  destruct (data_metadata_returns _ Hdata) as [callerMetadata Hread].
  eexists _, callerMetadata, (request_metadata callerMetadata event).
  split; [exact (create_run conv event callerMetadata Hread) |].
  split; [exact Hread |].
  repeat apply conj.
  - intros HC. unfold capture_method_of. rewrite HC. by simplify_map_eq.
  - intros HA. unfold capture_method_of. rewrite HA. by simplify_map_eq.
  - by simplify_map_eq.
  - by simplify_map_eq.
  - by simplify_map_eq.
  - by simplify_map_eq.
  - rewrite request_metadata_lookup.
    by destruct (__typename (sourceObject event)).
  - rewrite request_metadata_lookup.
    by destruct (__typename (sourceObject event)).
  - rewrite request_metadata_lookup. by case_decide.
  - rewrite request_metadata_lookup.
    by destruct (__typename (sourceObject event)).
  - intros k Hk. rewrite request_metadata_lookup.
    unfold metadata_written_keys in Hk.
    repeat case_decide; subst; try done; set_solver.
  - intros k Hk. unfold create_written_keys in Hk.
    rewrite !lookup_insert_ne; [done | set_solver ..].
Qed.

Lemma create_request_shape_witness :
  exists request,
    transactionSessionInitializeEventToStripeCreate Samples.times_hundred
      Samples.checkout_event_with_caller_fields
    = Returned request
    /\ request !! "capture_method" = Some (JStr "automatic")
    /\ request !! "description" = Some (JStr "basket").
Proof.
  destruct (create_request_shape Samples.times_hundred
              Samples.checkout_event_with_caller_fields eq_refl)
    as (request & callerMetadata & metadata & Hrun & _ & Hcharge & _ & _ & _ & _
        & _ & _ & _ & _ & _ & _ & Hframe).
  exists request. split; [exact Hrun |]. split.
  - apply Hcharge. reflexivity.
  - rewrite Hframe.
    + reflexivity.
    + unfold create_written_keys. intros Hin.
      repeat (apply elem_of_cons in Hin as [? | Hin]; [discriminate |]).
      by apply elem_of_nil in Hin.
Defined.

(** ** The configurator *)

Lemma new_events_app (w : World) (st : PartialAppConfig) (evs : list Event) (n : nat) :
  new_events w (mkWorld st (log w ++ evs) n) = evs.
Proof. unfold new_events. simpl. by rewrite drop_app_length. Qed.

Lemma setConfig_run newConfig replace (w : World) :
  AppConfigurator.setConfig newConfig replace w
  = (Returned tt,
     mkWorld (merge_write (stored w) newConfig replace)
             (log w ++ [WroteConfig newConfig replace]) (ids_issued w)).
Proof. reflexivity. Qed.

Lemma setConfigEntry_run newConfiguration (w : World) :
  AppConfigurator.setConfigEntry newConfiguration w
  = AppConfigurator.setConfig
      (mkPartial
         (Some match list_find (fun entry => configurationId entry
                                             = new_configurationId newConfiguration)
                               (configurations (visible w)) with
               | Some (i, existingEntry) =>
                   <[i := merge_entries existingEntry newConfiguration]>
                     (configurations (visible w))
               | None =>
                   (configurations (visible w) ++ [as_entry newConfiguration])%list
               end)
         None)
      false w.
Proof.
  unfold AppConfigurator.setConfigEntry, bind, AppConfigurator.getConfig, visible.
  by destruct (list_find _ _) as [[i existingEntry]|].
Qed.

Lemma deleteConfigEntry_run id (w : World) :
  AppConfigurator.deleteConfigEntry id w
  = (Returned tt,
     mkWorld
       (mkPartial
          (Some (filter (fun entry => configurationId entry ≠ id)
                        (configurations (visible w))))
          (Some (filter (fun kv : string * string => kv.2 ≠ id)
                        (channelToConfigurationId (visible w)))))
       (log w ++ [WroteConfig
                    (mkPartial
                       (Some (filter (fun entry => configurationId entry ≠ id)
                                     (configurations (visible w))))
                       (Some (filter (fun kv : string * string => kv.2 ≠ id)
                                     (channelToConfigurationId (visible w)))))
                    true])
       (ids_issued w)).
Proof. reflexivity. Qed.

Lemma first_with_id_find id entries i entry :
  first_with_id id entries i entry
  <-> list_find (fun e => configurationId e = id) entries = Some (i, entry).
Proof.
  unfold first_with_id. rewrite list_find_Some. naive_solver.
Qed.

Lemma no_entry_find id (entries : list ConfigEntry) :
  (forall e, e ∈ entries -> configurationId e <> id)
  <-> list_find (fun e => configurationId e = id) entries = None.
Proof.
  rewrite list_find_None, Forall_forall. naive_solver.
Qed.

(** C9. [setConfigEntry] returns, leaves the channel mapping as it was (its
    one write carries the configuration list only and does not replace),
    and upserts: when the first entry with the payload's id sits at index
    [i], the list keeps its length, index [i] holds the shallow merge (a
    property present in the payload wins, whatever its value, and an absent
    one keeps the stored value) and every other index holds what it held;
    when no entry has that id, the payload is appended at the end. *)
Theorem setConfigEntry_upsert
    (newConfiguration : AdyenEntryConfigUpdate) (w : World) :
  (AppConfigurator.setConfigEntry newConfiguration w).1 = Returned tt
  /\ channelToConfigurationId
       (visible (AppConfigurator.setConfigEntry newConfiguration w).2)
     = channelToConfigurationId (visible w)
  /\ writes (new_events w (AppConfigurator.setConfigEntry newConfiguration w).2)
     = [(mkPartial
           (Some (configurations
                    (visible (AppConfigurator.setConfigEntry newConfiguration w).2)))
           None,
         false)]
  /\ (forall i existingEntry,
        first_with_id (new_configurationId newConfiguration)
                      (configurations (visible w)) i existingEntry ->
        length (configurations
                  (visible (AppConfigurator.setConfigEntry newConfiguration w).2))
        = length (configurations (visible w))
        /\ configurations
             (visible (AppConfigurator.setConfigEntry newConfiguration w).2) !! i
           = Some (merge_entries existingEntry newConfiguration)
        /\ (forall j, j <> i ->
              configurations
                (visible (AppConfigurator.setConfigEntry newConfiguration w).2) !! j
              = configurations (visible w) !! j))
  /\ ((forall e, e ∈ configurations (visible w) ->
                 configurationId e <> new_configurationId newConfiguration) ->
      configurations
        (visible (AppConfigurator.setConfigEntry newConfiguration w).2)
      = (configurations (visible w) ++ [as_entry newConfiguration])%list)
  /\ (forall existingEntry,
        configurationId (merge_entries existingEntry newConfiguration)
        = new_configurationId newConfiguration
        /\ (forall property field,
              (property, field) ∈ entry_fields ->
              field (merge_entries existingEntry newConfiguration)
              = match property newConfiguration with
                | Present supplied => supplied
                | Absent => field existingEntry
                end))
  /\ configurationId (as_entry newConfiguration)
     = new_configurationId newConfiguration
  /\ (forall property field,
        (property, field) ∈ entry_fields ->
        field (as_entry newConfiguration)
        = match property newConfiguration with
          | Present supplied => supplied
          | Absent => None
          end).
Proof.
  rewrite setConfigEntry_run, setConfig_run. simpl.
  repeat apply conj.
  - done.
  - done.
  - by rewrite new_events_app.
  - intros i existingEntry Hfirst.
    pose proof Hfirst as (Hi & _ & _).
    apply first_with_id_find in Hfirst. rewrite Hfirst.
    unfold visible, schema_parse in *; simpl in *.
    split; [apply length_insert | split].
    + apply list_lookup_insert_eq. by eapply lookup_lt_Some.
    + intros j Hj. by apply list_lookup_insert_ne.
  - intros Hnone. apply no_entry_find in Hnone. by rewrite Hnone.
  - intros existingEntry. split; [done |]. intros property field Hfield.
    unfold entry_fields in Hfield.
    repeat (apply elem_of_cons in Hfield as [[= -> ->] | Hfield]; [done |]).
    by apply elem_of_nil in Hfield.
  - done.
  - intros property field Hfield. unfold entry_fields in Hfield.
    repeat (apply elem_of_cons in Hfield as [[= -> ->] | Hfield]; [done |]).
    by apply elem_of_nil in Hfield.
Qed.

Lemma setConfigEntry_upsert_witness :
  configurations
    (visible (AppConfigurator.setConfigEntry
                {| new_configurationId := "b";
                   new_configurationName := Present (Some "renamed");
                   new_secretKey := Present None;
                   new_publishableKey := Absent;
                   new_webhookId := Absent; new_webhookSecret := Absent |}
                Samples.three_entries).2) !! 1
  = Some {| configurationId := "b"; configurationName := Some "renamed";
            secretKey := None; publishableKey := Some "pk_test_1";
            webhookId := Some "we_1"; webhookSecret := Some "whsec_we_1" |}.
Proof.
  refine (proj1 (proj2 (proj1 (proj2 (proj2 (proj2 (setConfigEntry_upsert _ _))))
                          1 (Samples.entry "b" "second" "1" "we_1") _))).
  repeat split.
  intros j other Hj Hlt. destruct j as [|j]; [| lia].
  vm_compute in Hj. injection Hj as <-. discriminate.
Defined.

(** C10. [getConfigurationForChannel] always returns (it never throws), and
    it returns null for an undefined, null or empty channel id, for a
    channel without a mapping and for a mapping whose configuration id no
    entry has. *)
Theorem getConfigurationForChannel_total (appConfig : AppConfig) :
  (forall channelId,
      exists result, getConfigurationForChannel appConfig channelId
                     = Returned result)
  /\ getConfigurationForChannel appConfig IdUndefined = Returned None
  /\ getConfigurationForChannel appConfig IdNull = Returned None
  /\ getConfigurationForChannel appConfig (IdString "") = Returned None
  /\ (forall channelId,
        channelToConfigurationId appConfig !! channelId = None ->
        getConfigurationForChannel appConfig (IdString channelId) = Returned None)
  /\ (forall channelId id,
        channelToConfigurationId appConfig !! channelId = Some id ->
        (forall e, e ∈ configurations appConfig -> configurationId e <> id) ->
        getConfigurationForChannel appConfig (IdString channelId) = Returned None).
Proof.
  repeat apply conj; try done.
  - intros [| | channelId]; simpl; try by eexists.
    repeat (case_match; try by eexists).
  - intros channelId Hnone. simpl. rewrite Hnone. by case_match.
  - intros channelId id Hsome Habsent. simpl. rewrite Hsome.
    apply no_entry_find in Habsent. rewrite Habsent.
    by repeat case_match.
Qed.

Lemma getConfigurationForChannel_total_witness :
  getConfigurationForChannel (visible Samples.three_entries) (IdString "ch-9")
  = Returned None.
Proof.
  apply (proj1 (proj2 (proj2 (proj2 (proj2
           (getConfigurationForChannel_total (visible Samples.three_entries))))))).
  reflexivity.
Defined.

(** ** Key validation *)

(** C8 does not hold of the code. When the secret-key check passes and the
    publishable-key check fails, [validateStripeKeys] throws
    [InvalidSecretKeyError] whichever way the check failed; that class
    carries the field name [secretKey]. The classes declared for the
    publishable key are never thrown. *)
Theorem publishable_key_failure_reported_as_secret_key
    (ext : Collaborators) (secretKey publishableKey : string)
    (failure : StripeFailure) (w : World) :
  String.prefix "rk_" secretKey = false ->
  paymentIntents_list ext secretKey = None ->
  tokens_create ext publishableKey = Some failure ->
  (validateStripeKeys ext secretKey publishableKey w).1
  = Thrown (mkError InvalidSecretKeyError
              match failure with
              | IsStripeError => "Provided publishable key is invalid"
              | NotStripeError =>
                  "There was an error while checking publishable key"
              end)
  /\ fieldName InvalidSecretKeyError = Some "secretKey"
  /\ fieldName InvalidPublishableKeyError = Some "publishableKey"
  /\ fieldName UnexpectedPublishableKeyError = Some "publishableKey".
Proof.
  intros Hrk Hsecret Hpub. unfold validateStripeKeys, bind, emit.
  rewrite Hrk, Hsecret. simpl. rewrite Hpub. by destruct failure.
Qed.

Lemma publishable_key_failure_reported_as_secret_key_witness :
  (validateStripeKeys Samples.ext "sk_test_good" "pk_test_bad"
     Samples.empty_world).1
  = Thrown (mkError InvalidSecretKeyError "Provided publishable key is invalid").
Proof.
  apply (publishable_key_failure_reported_as_secret_key
           Samples.ext "sk_test_good" "pk_test_bad" IsStripeError
           Samples.empty_world); reflexivity.
Defined.

(** ** Entry lifecycle *)

Section Lifecycle.

Variable ext : Collaborators.

Lemma webhook_shared_Exists id entries entry :
  webhook_shared id entries entry
  <-> Exists (fun e => webhookId e = webhookId entry)
             (filter (fun e => configurationId e ≠ id) entries).
Proof.
  unfold webhook_shared. rewrite Exists_exists.
  setoid_rewrite list_elem_of_filter. naive_solver.
Qed.

Lemma manager_delete_shared id (w : World) i existingEntry :
  first_with_id id (configurations (visible w)) i existingEntry ->
  webhook_shared id (configurations (visible w)) existingEntry ->
  ConfigManager.deleteConfigEntry ext id w
  = AppConfigurator.deleteConfigEntry id w.
Proof.
  intros Hfirst Hshared.
  apply first_with_id_find in Hfirst. apply webhook_shared_Exists in Hshared.
  unfold ConfigManager.deleteConfigEntry, ConfigManager.getAllConfigEntriesDecrypted,
    bind at 1 2, AppConfigurator.getConfig, ret at 1.
  fold (visible w). rewrite Hfirst.
  rewrite bool_decide_eq_true_2 by done. reflexivity.
Qed.

Lemma manager_delete_unshared id (w : World) i existingEntry :
  first_with_id id (configurations (visible w)) i existingEntry ->
  ~ webhook_shared id (configurations (visible w)) existingEntry ->
  ConfigManager.deleteConfigEntry ext id w
  = AppConfigurator.deleteConfigEntry id (after_webhook_deletion existingEntry w).
Proof.
  intros Hfirst Hshared.
  apply first_with_id_find in Hfirst. rewrite webhook_shared_Exists in Hshared.
  unfold ConfigManager.deleteConfigEntry, ConfigManager.getAllConfigEntriesDecrypted,
    bind at 1 2, AppConfigurator.getConfig, ret at 1.
  fold (visible w). rewrite Hfirst.
  rewrite bool_decide_eq_false_2 by done. simpl.
  unfold bind at 1, try_catch, ConfigManager.deleteStripeWebhook, bind, emit, lift.
  by destruct (deleteStripeWebhook_impl ext _ _).
Qed.

(** What a delete of an existing entry does, in one statement: it returns,
    writes the recomputed aggregate once with [replace], and before that
    asks for the webhook's deletion exactly when no other entry has it. *)
Lemma manager_delete_existing id (w : World) i existingEntry :
  first_with_id id (configurations (visible w)) i existingEntry ->
  exists before_write,
    ConfigManager.deleteConfigEntry ext id w
    = (Returned tt,
       mkWorld
         (mkPartial
            (Some (filter (fun entry => configurationId entry ≠ id)
                          (configurations (visible w))))
            (Some (filter (fun kv : string * string => kv.2 ≠ id)
                          (channelToConfigurationId (visible w)))))
         (log w ++ before_write ++
            [WroteConfig
               (mkPartial
                  (Some (filter (fun entry => configurationId entry ≠ id)
                                (configurations (visible w))))
                  (Some (filter (fun kv : string * string => kv.2 ≠ id)
                                (channelToConfigurationId (visible w)))))
               true])
         (ids_issued w))
    /\ (webhook_shared id (configurations (visible w)) existingEntry ->
        before_write = [])
    /\ (~ webhook_shared id (configurations (visible w)) existingEntry ->
        before_write = [CalledDeleteStripeWebhook (webhookId existingEntry)
                                                  (secretKey existingEntry)]).
Proof.
  intros Hfirst.
  destruct (decide (Exists (fun e => webhookId e = webhookId existingEntry)
                      (filter (fun e => configurationId e ≠ id)
                              (configurations (visible w))))) as [Hs | Hs];
    rewrite <- webhook_shared_Exists in Hs.
  - exists []. rewrite (manager_delete_shared _ _ _ _ Hfirst Hs).
    rewrite deleteConfigEntry_run. by repeat split.
  - exists [CalledDeleteStripeWebhook (webhookId existingEntry)
                                      (secretKey existingEntry)].
    rewrite (manager_delete_unshared _ _ _ _ Hfirst Hs).
    rewrite deleteConfigEntry_run. unfold after_webhook_deletion, visible; simpl.
    rewrite <- app_assoc. by repeat split.
Qed.

Lemma existing_entry_first id (entries : list ConfigEntry) :
  (exists e, e ∈ entries /\ configurationId e = id) ->
  exists i entry, first_with_id id entries i entry.
Proof.
  intros (e & Hin & Hid).
  destruct (list_find_elem_of (fun e => configurationId e = id) entries e Hin Hid)
    as [[i entry] Hfind].
  exists i, entry. by apply first_with_id_find.
Qed.

Lemma writes_app evs1 evs2 : writes (evs1 ++ evs2) = (writes evs1 ++ writes evs2)%list.
Proof. apply omap_app. Qed.

Lemma webhook_deletions_app evs1 evs2 :
  webhook_deletions (evs1 ++ evs2)
  = (webhook_deletions evs1 ++ webhook_deletions evs2)%list.
Proof. apply omap_app. Qed.

Lemma validateStripeKeys_effects secretKey publishableKey (w : World) :
  exists evs,
    (validateStripeKeys ext secretKey publishableKey w).2
    = mkWorld (stored w) (log w ++ evs) (ids_issued w)
    /\ writes evs = [] /\ webhook_creations evs = [].
Proof.
  unfold validateStripeKeys, bind, emit, throw, ret.
  destruct (String.prefix "rk_" secretKey).
  { exists []. rewrite app_nil_r. by destruct w. }
  simpl. destruct (paymentIntents_list ext secretKey) as [[|]|]; simpl;
    try by eexists [_].
  destruct (tokens_create ext publishableKey) as [[|]|]; simpl;
    rewrite <- app_assoc; by eexists [_; _].
Qed.

End Lifecycle.

(** C4. Deleting an existing entry returns, leaves exactly the entries whose
    id differs from the deleted one (in their order) and exactly the channel
    mappings whose value differs from it, and reaches the backend as one
    write, with [replace] set, of that recomputed aggregate. *)
Theorem delete_removes_entry_and_its_mappings
    (ext : Collaborators) (id : string) (w : World) :
  (exists e, e ∈ configurations (visible w) /\ configurationId e = id) ->
  (ConfigManager.deleteConfigEntry ext id w).1 = Returned tt
  /\ configurations (visible (ConfigManager.deleteConfigEntry ext id w).2)
     = filter (fun e => configurationId e ≠ id) (configurations (visible w))
  /\ (forall e,
        e ∈ configurations (visible (ConfigManager.deleteConfigEntry ext id w).2)
        <-> e ∈ configurations (visible w) /\ configurationId e <> id)
  /\ (forall channel target,
        channelToConfigurationId
          (visible (ConfigManager.deleteConfigEntry ext id w).2) !! channel
        = Some target
        <-> channelToConfigurationId (visible w) !! channel = Some target
            /\ target <> id)
  /\ writes (new_events w (ConfigManager.deleteConfigEntry ext id w).2)
     = [(mkPartial
           (Some (configurations
                    (visible (ConfigManager.deleteConfigEntry ext id w).2)))
           (Some (channelToConfigurationId
                    (visible (ConfigManager.deleteConfigEntry ext id w).2))),
         true)].
Proof.
  intros Hex. destruct (existing_entry_first _ _ Hex) as (i & entry & Hfirst).
  destruct (manager_delete_existing ext id w i entry Hfirst)
    as (before_write & -> & Hshared & Hunshared).
  set (old := visible w) in *. clearbody old.
  unfold visible, schema_parse; simpl.
  repeat apply conj; try done.
  - intros e. by rewrite list_elem_of_filter, (comm and).
  - intros channel target. by rewrite map_lookup_filter_Some.
  - rewrite new_events_app, writes_app.
    destruct (decide (Exists (fun e => webhookId e = webhookId entry)
                        (filter (fun e => configurationId e ≠ id)
                                (configurations old)))) as [Hs | Hs];
      rewrite <- webhook_shared_Exists in Hs.
    + by rewrite (Hshared Hs).
    + by rewrite (Hunshared Hs).
Qed.

Lemma delete_removes_entry_and_its_mappings_witness :
  configurations
    (visible (ConfigManager.deleteConfigEntry Samples.ext "c"
                Samples.three_entries).2)
  = [Samples.entry "a" "first" "1" "we_1"; Samples.entry "b" "second" "1" "we_1"]
  /\ channelToConfigurationId
       (visible (ConfigManager.deleteConfigEntry Samples.ext "c"
                   Samples.three_entries).2)
     = {[ "ch-1" := "a"; "ch-2" := "b" ]}.
Proof.
  assert (Hex : exists e, e ∈ configurations (visible Samples.three_entries)
                          /\ configurationId e = "c").
  { exists (Samples.entry "c" "third" "2" "we_bad"). split; [| reflexivity].
    apply list_elem_of_In. vm_compute. tauto. }
  split.
  - rewrite (proj1 (proj2 (delete_removes_entry_and_its_mappings
                             Samples.ext "c" Samples.three_entries Hex))).
    reflexivity.
  - vm_compute. reflexivity.
Defined.

(** C5. On deleting an existing entry, the webhook provisioner is not asked
    to delete anything when another entry (one with a different
    configuration id, hence surviving) has the same webhook id, and is asked
    exactly once, for the entry's webhook and secret key, when none has. *)
Theorem delete_retires_webhook_only_when_unshared
    (ext : Collaborators) (id : string) (w : World)
    (i : nat) (existingEntry : ConfigEntry) :
  first_with_id id (configurations (visible w)) i existingEntry ->
  (webhook_shared id (configurations (visible w)) existingEntry ->
   webhook_deletions (new_events w (ConfigManager.deleteConfigEntry ext id w).2)
   = [])
  /\ (~ webhook_shared id (configurations (visible w)) existingEntry ->
      webhook_deletions (new_events w (ConfigManager.deleteConfigEntry ext id w).2)
      = [(webhookId existingEntry, secretKey existingEntry)]).
Proof.
  intros Hfirst.
  destruct (manager_delete_existing ext id w i existingEntry Hfirst)
    as (before_write & -> & Hshared & Hunshared).
  simpl. rewrite new_events_app, webhook_deletions_app.
  split; intros Hs.
  - by rewrite (Hshared Hs).
  - by rewrite (Hunshared Hs).
Qed.

Lemma delete_retires_webhook_only_when_unshared_witness :
  webhook_deletions
    (new_events Samples.three_entries
       (ConfigManager.deleteConfigEntry Samples.ext "a" Samples.three_entries).2)
  = [].
Proof.
  refine (proj1 (delete_retires_webhook_only_when_unshared Samples.ext "a"
                   Samples.three_entries 0
                   (Samples.entry "a" "first" "1" "we_1") _) _).
  - repeat split. intros j other _ Hlt. lia.
  - exists (Samples.entry "b" "second" "1" "we_1"). repeat split.
    + apply list_elem_of_In. vm_compute. tauto.
    + discriminate.
Defined.

(** C6. When the entry's webhook is not shared and the provisioner's
    deletion call throws, the call the delete makes to it throws that
    error and yet the delete returns normally: the error is not propagated,
    the deletion was attempted once, and the entry and the mappings pointing
    to it are gone from the store. *)
Theorem delete_survives_webhook_failure
    (ext : Collaborators) (id : string) (w : World)
    (i : nat) (existingEntry : ConfigEntry) (failure : Error) :
  first_with_id id (configurations (visible w)) i existingEntry ->
  ~ webhook_shared id (configurations (visible w)) existingEntry ->
  deleteStripeWebhook_impl ext (webhookId existingEntry) (secretKey existingEntry)
  = Thrown failure ->
  (ConfigManager.deleteStripeWebhook ext (webhookId existingEntry)
     (secretKey existingEntry) w).1 = Thrown failure
  /\ (ConfigManager.deleteConfigEntry ext id w).1 = Returned tt
  /\ webhook_deletions (new_events w (ConfigManager.deleteConfigEntry ext id w).2)
     = [(webhookId existingEntry, secretKey existingEntry)]
  /\ configurations (visible (ConfigManager.deleteConfigEntry ext id w).2)
     = filter (fun e => configurationId e ≠ id) (configurations (visible w))
  /\ (existingEntry ∉ configurations
                        (visible (ConfigManager.deleteConfigEntry ext id w).2))
  /\ (forall channel,
        channelToConfigurationId
          (visible (ConfigManager.deleteConfigEntry ext id w).2) !! channel
        <> Some id).
Proof.
  intros Hfirst Hunshared Hfail.
  split.
  { unfold ConfigManager.deleteStripeWebhook, bind, emit, lift. simpl.
    by rewrite Hfail. }
  destruct (manager_delete_existing ext id w i existingEntry Hfirst)
    as (before_write & -> & _ & Hcall).
  rewrite (Hcall Hunshared). simpl.
  rewrite new_events_app.
  set (old := visible w) in *. clearbody old.
  unfold visible, schema_parse; simpl.
  repeat apply conj; try done.
  - rewrite list_elem_of_filter. destruct Hfirst as (_ & Hid & _). tauto.
  - intros channel Hlookup. apply map_lookup_filter_Some in Hlookup as [_ Hne].
    by apply Hne.
Qed.

Lemma delete_survives_webhook_failure_witness :
  (ConfigManager.deleteConfigEntry Samples.ext "c" Samples.three_entries).1
  = Returned tt
  /\ deleteStripeWebhook_impl Samples.ext (Some "we_bad") (Some "sk_test_2")
     = Thrown (mkError UpstreamError "No such webhook endpoint").
Proof.
  split; [| reflexivity].
  refine (proj1 (proj2 (delete_survives_webhook_failure Samples.ext "c"
                          Samples.three_entries 2
                          (Samples.entry "c" "third" "2" "we_bad")
                          (mkError UpstreamError "No such webhook endpoint")
                          _ _ _))).
  - repeat split. intros j other Hj Hlt.
    destruct j as [| [| j]]; [| | lia]; vm_compute in Hj;
      injection Hj as <-; discriminate.
  - intros (other & Hin & Hne & Hwh).
    apply list_elem_of_In in Hin. vm_compute in Hin.
    destruct Hin as [<- | [<- | [<- | []]]];
      [discriminate Hwh | discriminate Hwh | by apply Hne].
  - reflexivity.
Defined.

Lemma add_run_validation_throws
    (ext : Collaborators) (saleorApiUrl : string)
    (newConfigEntry : FormConfigEntry) (appUrl : string) (w w1 : World) e :
  validateStripeKeys ext (form_secretKey newConfigEntry)
                         (form_publishableKey newConfigEntry) w
  = (Thrown e, w1) ->
  ConfigManager.addConfigEntry ext saleorApiUrl newConfigEntry appUrl w
  = (Thrown e, w1).
Proof.
  intros Hvalidate. unfold ConfigManager.addConfigEntry, bind at 1.
  by rewrite Hvalidate.
Qed.

Lemma add_run_provisioning_throws
    (ext : Collaborators) (saleorApiUrl : string)
    (newConfigEntry : FormConfigEntry) (appUrl : string) (w w1 : World) u e :
  validateStripeKeys ext (form_secretKey newConfigEntry)
                         (form_publishableKey newConfigEntry) w
  = (Returned u, w1) ->
  createStripeWebhook_impl ext appUrl (form_secretKey newConfigEntry)
                           saleorApiUrl (visible w1)
  = Thrown e ->
  ConfigManager.addConfigEntry ext saleorApiUrl newConfigEntry appUrl w
  = (Thrown e,
     mkWorld (stored w1)
             (log w1 ++ [CalledCreateStripeWebhook
                           appUrl (form_secretKey newConfigEntry) saleorApiUrl])
             (ids_issued w1)).
Proof.
  intros Hvalidate Hcreate. unfold ConfigManager.addConfigEntry, bind at 1.
  rewrite Hvalidate. unfold bind at 1.
  unfold ConfigManager.createStripeWebhook, bind at 1 2, emit,
    AppConfigurator.getConfig, lift. simpl.
  unfold visible in Hcreate. simpl in Hcreate. by rewrite Hcreate.
Qed.

(** C3. An Add whose key validation throws ends with that error, without
    calling the webhook provisioner, generating an id or writing to the
    store; an Add whose validation passes and whose webhook provisioning
    throws ends with that error after the one provisioning call, without
    generating an id or writing to the store. In both cases the stored
    aggregate is what it was. *)
Theorem add_aborts_without_persisting
    (ext : Collaborators) (saleorApiUrl : string)
    (newConfigEntry : FormConfigEntry) (appUrl : string) (w : World) :
  (forall e,
      (validateStripeKeys ext (form_secretKey newConfigEntry)
                              (form_publishableKey newConfigEntry) w).1
      = Thrown e ->
      (ConfigManager.addConfigEntry ext saleorApiUrl newConfigEntry appUrl w).1
      = Thrown e
      /\ stored (ConfigManager.addConfigEntry ext saleorApiUrl newConfigEntry
                   appUrl w).2 = stored w
      /\ ids_issued (ConfigManager.addConfigEntry ext saleorApiUrl newConfigEntry
                       appUrl w).2 = ids_issued w
      /\ writes (new_events w
                   (ConfigManager.addConfigEntry ext saleorApiUrl newConfigEntry
                      appUrl w).2) = []
      /\ webhook_creations
           (new_events w
              (ConfigManager.addConfigEntry ext saleorApiUrl newConfigEntry
                 appUrl w).2) = [])
  /\ (forall e,
        (validateStripeKeys ext (form_secretKey newConfigEntry)
                                (form_publishableKey newConfigEntry) w).1
        = Returned tt ->
        createStripeWebhook_impl ext appUrl (form_secretKey newConfigEntry)
                                 saleorApiUrl (visible w)
        = Thrown e ->
        (ConfigManager.addConfigEntry ext saleorApiUrl newConfigEntry appUrl w).1
        = Thrown e
        /\ stored (ConfigManager.addConfigEntry ext saleorApiUrl newConfigEntry
                     appUrl w).2 = stored w
        /\ ids_issued (ConfigManager.addConfigEntry ext saleorApiUrl
                         newConfigEntry appUrl w).2 = ids_issued w
        /\ writes (new_events w
                     (ConfigManager.addConfigEntry ext saleorApiUrl
                        newConfigEntry appUrl w).2) = []
        /\ webhook_creations
             (new_events w
                (ConfigManager.addConfigEntry ext saleorApiUrl newConfigEntry
                   appUrl w).2)
           = [(appUrl, form_secretKey newConfigEntry, saleorApiUrl)]).
Proof.
  destruct (validateStripeKeys_effects ext (form_secretKey newConfigEntry)
              (form_publishableKey newConfigEntry) w)
    as (evs & Hworld & Hwrites & Hcreations).
  destruct (validateStripeKeys ext _ _ w) as [[u | e0] w1] eqn:Hvalidate;
    simpl in Hworld; subst w1; split; intros e; simpl; try discriminate.
  - intros _ Hcreate.
    rewrite (add_run_provisioning_throws _ _ _ _ _ _ _ _ Hvalidate Hcreate).
    simpl. rewrite <- app_assoc, new_events_app.
    unfold writes, webhook_creations in *.
    by rewrite !omap_app, Hwrites, Hcreations.
  - intros [= ->].
    rewrite (add_run_validation_throws _ saleorApiUrl _ appUrl _ _ _ Hvalidate).
    simpl. by rewrite new_events_app.
Qed.

Lemma add_aborts_without_persisting_witness :
  (ConfigManager.addConfigEntry Samples.ext Samples.saleorApiUrl
     (mkForm "shop" "sk_test_bad" "pk_test_good") "https://app.example"
     Samples.three_entries).1
  = Thrown (mkError InvalidSecretKeyError "Provided secret key is invalid")
  /\ (ConfigManager.addConfigEntry Samples.ext Samples.saleorApiUrl
        (mkForm "shop" "sk_test_nohook" "pk_test_good") "https://app.example"
        Samples.three_entries).1
     = Thrown (mkError UpstreamError "webhook endpoint creation failed").
Proof.
  split.
  - apply (proj1 (add_aborts_without_persisting Samples.ext Samples.saleorApiUrl
                    (mkForm "shop" "sk_test_bad" "pk_test_good")
                    "https://app.example" Samples.three_entries)).
    reflexivity.
  - apply (proj2 (add_aborts_without_persisting Samples.ext Samples.saleorApiUrl
                    (mkForm "shop" "sk_test_nohook" "pk_test_good")
                    "https://app.example" Samples.three_entries));
      reflexivity.
Defined.

(** ** The successful paths, run on the samples *)

Example add_appends_entry :
  ConfigManager.addConfigEntry Samples.ext Samples.saleorApiUrl
    (mkForm "shop" "sk_test_good" "pk_test_good") "https://app.example"
    Samples.empty_world
  = (Returned {| configurationId := "0190-0";
                 configurationName := Some "shop";
                 secretKey := Some "****";
                 publishableKey := Some "****";
                 webhookId := Some "we_1";
                 webhookSecret := Some "****" |},
     {| stored :=
          mkPartial
            (Some [ {| configurationId := "0190-0";
                       configurationName := Some "shop";
                       secretKey := Some "sk_test_good";
                       publishableKey := Some "pk_test_good";
                       webhookId := Some "we_1";
                       webhookSecret := Some "whsec_1" |} ])
            None;
        log :=
          [ CalledPaymentIntentsList "sk_test_good";
            CalledTokensCreate "pk_test_good";
            CalledCreateStripeWebhook "https://app.example" "sk_test_good"
                                      Samples.saleorApiUrl;
            CalledUuidv7;
            WroteConfig
              (mkPartial
                 (Some [ {| configurationId := "0190-0";
                            configurationName := Some "shop";
                            secretKey := Some "sk_test_good";
                            publishableKey := Some "pk_test_good";
                            webhookId := Some "we_1";
                            webhookSecret := Some "whsec_1" |} ])
                 None)
              false ];
        ids_issued := 1 |}).
Proof. reflexivity. Qed.

Example restricted_key_rejected_before_any_call :
  validateStripeKeys Samples.ext "rk_test_1" "pk_test_good" Samples.empty_world
  = (Thrown (mkError RestrictedKeyNotSupportedError
               "Restricted keys are not supported"),
     Samples.empty_world).
Proof. reflexivity. Qed.

Example delete_of_unknown_id_throws :
  ConfigManager.deleteConfigEntry Samples.ext "z" Samples.three_entries
  = (Thrown (mkError EntryNotFoundError "Entry with id z was not found"),
     Samples.three_entries).
Proof. reflexivity. Qed.

Example delete_of_unshared_entry_log :
  log (ConfigManager.deleteConfigEntry Samples.ext "c" Samples.three_entries).2
  = [ CalledDeleteStripeWebhook (Some "we_bad") (Some "sk_test_2");
      WroteConfig
        (mkPartial
           (Some [Samples.entry "a" "first" "1" "we_1";
                  Samples.entry "b" "second" "1" "we_1"])
           (Some {[ "ch-1" := "a"; "ch-2" := "b" ]}))
        true ].
Proof. reflexivity. Qed.

Example create_throws_on_null_data :
  transactionSessionInitializeEventToStripeCreate Samples.times_hundred
    (mkEvent (Some JNull)
       (sourceObject Samples.checkout_event_with_caller_fields) Charge "tx-3")
  = Thrown (mkError TypeError
              "Cannot read properties of null (reading 'metadata')").
Proof. reflexivity. Qed.

Example create_accepts_data_without_properties :
  transactionSessionInitializeEventToStripeCreate Samples.times_hundred
    (mkEvent (Some (JBool true))
       (sourceObject Samples.checkout_event_with_caller_fields)
       Authorization "tx-4")
  = Returned
      {[ "amount" := JNum (222.99 * 100)%float;
         "currency" := JStr "USD";
         "automatic_payment_methods" := JObj {[ "enabled" := JBool true ]};
         "capture_method" := JStr "manual";
         "metadata" :=
           JObj {[ "transactionId" := JStr "tx-4";
                   "channelId" := JStr "channel-1";
                   "checkoutId" := JStr "checkout-1" ]} ]}.
Proof. vm_compute. reflexivity. Qed.

Example spread_of_string_is_per_code_unit :
  own_properties (Some (JStr "aé€"))
  = {[ "0" := JStr "a"; "1" := JStr "é"; "2" := JStr "€" ]}.
Proof. vm_compute. reflexivity. Qed.

Example upsert_with_undefined_property_clears_field :
  configurations
    (visible (world_after
                (AppConfigurator.setConfigEntry
                   (mkPayload "b" (Present None) Absent Absent Absent Absent))
                Samples.three_entries)) !! 1
  = Some (mkConfigEntry "b" None (Some "sk_test_1") (Some "pk_test_1")
            (Some "we_1") (Some "whsec_we_1")).
Proof. reflexivity. Qed.

Example resolves_mapped_channel :
  getConfigurationForChannel (visible Samples.three_entries) (IdString "ch-2")
  = Returned (Some (Samples.entry "b" "second" "1" "we_1")).
Proof. reflexivity. Qed.

(* ===================================================================== *)
(** * Further properties *)
(* ===================================================================== *)

(** ** Further properties: key validation *)

Lemma prefix_app (p rest : string) : String.prefix p (p ++ rest) = true.
Proof.
  induction p as [| c p IH]; simpl.
  - by destruct rest.
  - destruct (Ascii.ascii_dec c c); [exact IH | done].
Qed.

Lemma validateStripeKeys_run (ext : Collaborators) secretKey publishableKey
    (w : World) :
  validateStripeKeys ext secretKey publishableKey w
  = if String.prefix "rk_" secretKey then
      (Thrown (mkError RestrictedKeyNotSupportedError
                 "Restricted keys are not supported"), w)
    else
      match paymentIntents_list ext secretKey with
      | Some failure =>
          (Thrown (mkError InvalidSecretKeyError
                     match failure with
                     | IsStripeError => "Provided secret key is invalid"
                     | NotStripeError =>
                         "There was an error while checking secret key"
                     end),
           mkWorld (stored w) (log w ++ [CalledPaymentIntentsList secretKey])
                   (ids_issued w))
      | None =>
          (match tokens_create ext publishableKey with
           | Some failure =>
               Thrown (mkError InvalidSecretKeyError
                         match failure with
                         | IsStripeError => "Provided publishable key is invalid"
                         | NotStripeError =>
                             "There was an error while checking publishable key"
                         end)
           | None => Returned tt
           end,
           mkWorld (stored w)
                   (log w ++ [CalledPaymentIntentsList secretKey;
                              CalledTokensCreate publishableKey])
                   (ids_issued w))
      end.
Proof.
  unfold validateStripeKeys, bind, emit, throw, ret.
  destruct (String.prefix "rk_" secretKey); [done |]. simpl.
  destruct (paymentIntents_list ext secretKey) as [[|]|]; simpl; try done.
  rewrite <- app_assoc.
  by destruct (tokens_create ext publishableKey) as [[|]|].
Qed.

(** X1. An Add with a restricted secret key (one that starts with rk_) is
    rejected with RestrictedKeyNotSupportedError, whose field name is
    secretKey, before anything else happens: no Stripe call, no provisioner
    call, no id, no write. The world is exactly what it was. *)
Theorem add_rejects_restricted_key_untouched
    (ext : Collaborators) (saleorApiUrl : string)
    (name rest publishableKey appUrl : string) (w : World) :
  ConfigManager.addConfigEntry ext saleorApiUrl
    (mkForm name ("rk_" ++ rest) publishableKey) appUrl w
  = (Thrown (mkError RestrictedKeyNotSupportedError
               "Restricted keys are not supported"), w)
  /\ fieldName RestrictedKeyNotSupportedError = Some "secretKey".
Proof.
  split; [| done].
  apply add_run_validation_throws. simpl form_secretKey.
  rewrite validateStripeKeys_run. by rewrite prefix_app.
Qed.

(** X2. Validation sends the publishable key to Stripe exactly when the
    secret key is not a restricted key and has passed its own check, and it
    sends the secret key exactly when it is not a restricted key. *)
Theorem validation_checks_in_order
    (ext : Collaborators) (secretKey publishableKey : string) (w : World) :
  (CalledTokensCreate publishableKey
     ∈ new_events w (world_after (validateStripeKeys ext secretKey publishableKey) w)
   <-> String.prefix "rk_" secretKey = false
       /\ paymentIntents_list ext secretKey = None)
  /\ (CalledPaymentIntentsList secretKey
        ∈ new_events w (world_after (validateStripeKeys ext secretKey publishableKey) w)
      <-> String.prefix "rk_" secretKey = false).
Proof.
  unfold world_after. rewrite validateStripeKeys_run.
  destruct (String.prefix "rk_" secretKey).
  { unfold new_events. rewrite drop_all. simpl.
    split; split; try (intros []; discriminate); try discriminate;
      intros Hin; by apply elem_of_nil in Hin. }
  destruct (paymentIntents_list ext secretKey) as [failure |]; simpl;
    rewrite new_events_app.
  - split; split; try done.
    + intros Hin. apply list_elem_of_singleton in Hin. discriminate.
    + intros [_ ?]. discriminate.
    + intros _. by apply list_elem_of_singleton.
  - split; split; try done; intros _; set_solver.
Qed.

(** X3. Validation returns exactly when the secret key is not restricted
    and both live checks pass; whatever its outcome, it leaves the stored
    aggregate and the id counter alone. *)
Theorem validation_passes_iff
    (ext : Collaborators) (secretKey publishableKey : string) (w : World) :
  (result_of (validateStripeKeys ext secretKey publishableKey) w = Returned tt
   <-> String.prefix "rk_" secretKey = false
       /\ paymentIntents_list ext secretKey = None
       /\ tokens_create ext publishableKey = None)
  /\ stored (world_after (validateStripeKeys ext secretKey publishableKey) w)
     = stored w
  /\ ids_issued (world_after (validateStripeKeys ext secretKey publishableKey) w)
     = ids_issued w.
Proof.
  unfold result_of, world_after. rewrite validateStripeKeys_run.
  destruct (String.prefix "rk_" secretKey); simpl.
  { split; [| done]. split; [discriminate | intros []; discriminate]. }
  destruct (paymentIntents_list ext secretKey) as [failure |]; simpl.
  { split; [| done]. split; [discriminate | intros (_ & ? & _); discriminate]. }
  split; [| done].
  destruct (tokens_create ext publishableKey) as [failure |]; simpl.
  - split; [discriminate | intros (_ & _ & ?); discriminate].
  - done.
Qed.

(** X4. A key with one of the prefixes sk_live_, pk_live_ and rk_live_ is in
    the live environment, whatever follows the prefix; a key with the
    matching test prefix is in the test environment. *)
Theorem environment_of_prefixed_key (rest : string) :
  getEnvironmentFromKey ("sk_live_" ++ rest) = "live"
  /\ getEnvironmentFromKey ("pk_live_" ++ rest) = "live"
  /\ getEnvironmentFromKey ("rk_live_" ++ rest) = "live"
  /\ getEnvironmentFromKey ("sk_test_" ++ rest) = "test"
  /\ getEnvironmentFromKey ("pk_test_" ++ rest) = "test"
  /\ getEnvironmentFromKey ("rk_test_" ++ rest) = "test".
Proof.
  unfold getEnvironmentFromKey.
  repeat split; try by rewrite ?prefix_app, ?orb_true_r.
  all: by destruct rest.
Qed.

(** ** Further properties: the session mappers *)

(** X5. On an event whose data is null or undefined both mappers throw the
    same TypeError. Otherwise both return, and the update request is the
    create request without the forced automatic_payment_methods: the two
    agree on every other key, and under that key the update request carries
    what the caller's data spreads to (nothing when it has none). *)
Theorem update_request_is_create_without_forced_methods
    (conv : Money -> float) (event : TransactionSessionEvent) :
  (nullish (data event) = true ->
   exists e,
     class e = TypeError
     /\ transactionSessionInitializeEventToStripeCreate conv event = Thrown e
     /\ transactionSessionProcessEventToStripeUpdate conv event = Thrown e)
  /\ (nullish (data event) = false ->
      exists created updated,
        transactionSessionInitializeEventToStripeCreate conv event
        = Returned created
        /\ transactionSessionProcessEventToStripeUpdate conv event
           = Returned updated
        /\ (forall k, k <> "automatic_payment_methods" ->
              updated !! k = created !! k)
        /\ updated !! "automatic_payment_methods"
           = own_properties (data event) !! "automatic_payment_methods").
Proof.
  split.
  - intros Hnull. destruct (data_metadata_throws _ Hnull) as (e & Hread & Hclass).
    exists e. split; [exact Hclass |]. by apply mappers_throw.
  - intros Hdata. destruct (data_metadata_returns _ Hdata) as [metadata Hread].
    eexists _, _.
    split; [exact (create_run conv event metadata Hread) |].
    split; [exact (update_run conv event metadata Hread) |].
    split.
    + intros k Hk.
      destruct (decide (k = "metadata")) as [-> | ?]; [by simplify_map_eq |].
      destruct (decide (k = "capture_method")) as [-> | ?];
        [by simplify_map_eq |].
      destruct (decide (k = "currency")) as [-> | ?]; [by simplify_map_eq |].
      destruct (decide (k = "amount")) as [-> | ?]; [by simplify_map_eq |].
      by rewrite !lookup_insert_ne.
    + by rewrite !lookup_insert_ne.
Qed.

Lemma update_request_is_create_without_forced_methods_witness :
  (exists e,
     transactionSessionProcessEventToStripeUpdate Samples.times_hundred
       (mkEvent (Some JNull)
          (sourceObject Samples.checkout_event_with_caller_fields)
          Charge "tx-3")
     = Thrown e)
  /\ exists updated,
       transactionSessionProcessEventToStripeUpdate Samples.times_hundred
         Samples.checkout_event_with_caller_fields
       = Returned updated
       /\ updated !! "automatic_payment_methods"
          = Some (JObj {[ "enabled" := JBool false ]}).
Proof.
  split.
  - destruct (proj1 (update_request_is_create_without_forced_methods
                       Samples.times_hundred
                       (mkEvent (Some JNull)
                          (sourceObject Samples.checkout_event_with_caller_fields)
                          Charge "tx-3")) eq_refl)
      as (e & _ & _ & Hupdate).
    by exists e.
  - destruct (proj2 (update_request_is_create_without_forced_methods
                       Samples.times_hundred
                       Samples.checkout_event_with_caller_fields) eq_refl)
      as (created & updated & _ & Hupdate & _ & Hmethods).
    exists updated. split; [exact Hupdate |]. rewrite Hmethods. reflexivity.
Defined.

(** X6. On an event whose data is neither null nor undefined, both mappers
    put under metadata an object whose keys are the keys data.metadata
    spreads to (its own keys for an object, decimal indices for an array or
    the code units of a string) together with transactionId, channelId and
    the source's id key; when data.metadata is absent, null, a boolean or a
    number, these three are the only keys. *)
Theorem request_metadata_keys
    (conv : Money -> float) (event : TransactionSessionEvent) :
  nullish (data event) = false ->
  exists created updated callerMetadata metadata,
    transactionSessionInitializeEventToStripeCreate conv event = Returned created
    /\ transactionSessionProcessEventToStripeUpdate conv event = Returned updated
    /\ data_metadata (data event) = Returned callerMetadata
    /\ created !! "metadata" = Some (JObj metadata)
    /\ updated !! "metadata" = Some (JObj metadata)
    /\ dom metadata
       = dom (own_properties callerMetadata)
           ∪ {[ "transactionId"; "channelId";
                source_id_key (__typename (sourceObject event)) ]}
    /\ ((forall fields, callerMetadata <> Some (JObj fields)) ->
        (forall items, callerMetadata <> Some (JArr items)) ->
        (forall s, callerMetadata <> Some (JStr s)) ->
        dom metadata
        = {[ "transactionId"; "channelId";
             source_id_key (__typename (sourceObject event)) ]}).
Proof.
  intros Hdata. destruct (data_metadata_returns _ Hdata) as [callerMetadata Hread].
  eexists _, _, callerMetadata, (request_metadata callerMetadata event).
  split; [exact (create_run conv event callerMetadata Hread) |].
  split; [exact (update_run conv event callerMetadata Hread) |].
  split; [exact Hread |].
  split; [by simplify_map_eq |]. split; [by simplify_map_eq |].
  assert (Hdom : dom (request_metadata callerMetadata event)
                 = dom (own_properties callerMetadata)
                     ∪ {[ "transactionId"; "channelId";
                          source_id_key (__typename (sourceObject event)) ]}).
  { apply set_eq. intros k.
    rewrite elem_of_dom, request_metadata_lookup, elem_of_union, elem_of_dom.
    repeat case_decide; subst; split; intros Hk; set_solver. }
  split; [exact Hdom |].
  intros Hobj Harr Hstr. rewrite Hdom.
  destruct callerMetadata as [[| | | s | items | fields] |]; simpl;
    rewrite ?dom_empty_L; set_solver.
Qed.

Lemma request_metadata_keys_witness :
  exists created metadata,
    transactionSessionInitializeEventToStripeCreate Samples.times_hundred
      (mkEvent (Some (JObj {[ "metadata" := JNull ]}))
         (sourceObject Samples.checkout_event_with_caller_fields)
         Authorization "tx-2")
    = Returned created
    /\ created !! "metadata" = Some (JObj metadata)
    /\ dom metadata = {[ "transactionId"; "channelId"; "checkoutId" ]}.
Proof.
  destruct (request_metadata_keys Samples.times_hundred
              (mkEvent (Some (JObj {[ "metadata" := JNull ]}))
                 (sourceObject Samples.checkout_event_with_caller_fields)
                 Authorization "tx-2") eq_refl)
    as (created & updated & callerMetadata & metadata & Hcreate & _ & Hread
        & Hmetadata & _ & _ & Hkeys).
  exists created, metadata. split; [exact Hcreate |]. split; [exact Hmetadata |].
  vm_compute in Hread. injection Hread as <-.
  apply Hkeys; intros x Hx; discriminate.
Defined.

(** ** Further properties: result translation *)

(** X7. A final result is reported only for the final statuses: the
    translation yields CHARGE_SUCCESS or AUTHORIZATION_SUCCESS exactly for
    status succeeded under the matching strategy, and CHARGE_FAILURE or
    AUTHORIZATION_FAILURE exactly for status canceled. *)
Theorem final_results_only_for_final_statuses
    (strategy : TransactionFlowStrategyEnum) (status : string) :
  (stripePaymentIntentToTransactionResult strategy status
   = Returned (Some "CHARGE_SUCCESS")
   <-> strategy = Charge /\ status = "succeeded")
  /\ (stripePaymentIntentToTransactionResult strategy status
      = Returned (Some "AUTHORIZATION_SUCCESS")
      <-> strategy = Authorization /\ status = "succeeded")
  /\ (stripePaymentIntentToTransactionResult strategy status
      = Returned (Some "CHARGE_FAILURE")
      <-> strategy = Charge /\ status = "canceled")
  /\ (stripePaymentIntentToTransactionResult strategy status
      = Returned (Some "AUTHORIZATION_FAILURE")
      <-> strategy = Authorization /\ status = "canceled").
Proof.
  unfold stripePaymentIntentToTransactionResult.
  destruct strategy; simpl; repeat case_decide; subst;
    repeat split; try discriminate; try done;
    try (intros [? ?]; discriminate); try (intros [? ?]; congruence).
Qed.

(** ** Further properties: the configurator *)

Lemma merge_entries_idem existingEntry newConfiguration :
  merge_entries (merge_entries existingEntry newConfiguration) newConfiguration
  = merge_entries existingEntry newConfiguration.
Proof.
  unfold merge_entries; simpl. f_equal;
    by destruct newConfiguration as [? [] [] [] [] []].
Qed.

Lemma merge_entries_self newConfiguration :
  merge_entries (as_entry newConfiguration) newConfiguration
  = as_entry newConfiguration.
Proof. by destruct newConfiguration as [? [] [] [] [] []]. Qed.

(** The configuration list and the mapping a [setConfigEntry] leaves. *)
Lemma visible_after_setConfigEntry newConfiguration (w : World) :
  configurations (visible (world_after
                             (AppConfigurator.setConfigEntry newConfiguration) w))
  = match list_find (fun entry => configurationId entry
                                  = new_configurationId newConfiguration)
                    (configurations (visible w)) with
    | Some (i, existingEntry) =>
        <[i := merge_entries existingEntry newConfiguration]>
          (configurations (visible w))
    | None => (configurations (visible w) ++ [as_entry newConfiguration])%list
    end
  /\ channelToConfigurationId
       (visible (world_after (AppConfigurator.setConfigEntry newConfiguration) w))
     = channelToConfigurationId (visible w).
Proof.
  unfold world_after. by rewrite setConfigEntry_run, setConfig_run.
Qed.

Lemma visible_after_deleteConfigEntry id (w : World) :
  visible (world_after (AppConfigurator.deleteConfigEntry id) w)
  = {| configurations :=
         filter (fun entry => configurationId entry ≠ id)
                (configurations (visible w));
       channelToConfigurationId :=
         filter (fun kv : string * string => kv.2 ≠ id)
                (channelToConfigurationId (visible w)) |}.
Proof. unfold world_after. by rewrite deleteConfigEntry_run. Qed.

(** After an upsert the first entry with the payload's id is the stored
    version of the payload. *)
Lemma find_after_setConfigEntry newConfiguration (w : World) :
  exists i stored_entry,
    list_find (fun entry => configurationId entry
                            = new_configurationId newConfiguration)
              (configurations
                 (visible (world_after
                             (AppConfigurator.setConfigEntry newConfiguration) w)))
    = Some (i, stored_entry)
    /\ stored_entry
       = match list_find (fun entry => configurationId entry
                                       = new_configurationId newConfiguration)
                         (configurations (visible w)) with
         | Some (_, existingEntry) => merge_entries existingEntry newConfiguration
         | None => as_entry newConfiguration
         end.
Proof.
  destruct (visible_after_setConfigEntry newConfiguration w) as [-> _].
  destruct (list_find _ (configurations (visible w)))
    as [[i existingEntry] |] eqn:Hfind.
  - exists i, (merge_entries existingEntry newConfiguration). split; [| done].
    apply list_find_Some in Hfind as (Hi & Hid & Hbefore).
    apply list_find_Some. repeat split.
    + apply list_lookup_insert_eq. by eapply lookup_lt_Some.
    + intros j other Hj Hlt. rewrite list_lookup_insert_ne in Hj by lia.
      by eapply Hbefore.
  - exists (length (configurations (visible w))), (as_entry newConfiguration).
    split; [| done].
    apply list_find_None in Hfind. rewrite Forall_forall in Hfind.
    apply list_find_Some. repeat split.
    + by rewrite lookup_app_r, Nat.sub_diag.
    + intros j other Hj Hlt. rewrite lookup_app_l in Hj by done.
      apply Hfind. by eapply list_elem_of_lookup_2.
Qed.

Lemma getConfigEntryDecrypted_run id (w : World) :
  ConfigManager.getConfigEntryDecrypted id w
  = (match list_find (fun entry => configurationId entry = id)
                     (configurations (visible w)) with
     | Some (_, entry) => Returned entry
     | None => Thrown (mkError EntryNotFoundError
                         (ConfigManager.not_found_message id))
     end, w).
Proof.
  unfold ConfigManager.getConfigEntryDecrypted,
    ConfigManager.getAllConfigEntriesDecrypted, bind, AppConfigurator.getConfig,
    ret, throw, visible.
  by destruct (list_find _ _) as [[? ?] |].
Qed.

(** X8. [setConfigEntry] is idempotent: writing the same payload a second
    time leaves the stored aggregate as the first write left it. *)
Theorem setConfigEntry_idempotent
    (newConfiguration : AdyenEntryConfigUpdate) (w : World) :
  stored (world_after (AppConfigurator.setConfigEntry newConfiguration)
            (world_after (AppConfigurator.setConfigEntry newConfiguration) w))
  = stored (world_after (AppConfigurator.setConfigEntry newConfiguration) w).
Proof.
  destruct (find_after_setConfigEntry newConfiguration w)
    as (i & stored_entry & Hfind & Hentry).
  pose proof (proj1 (list_find_Some _ _ _ _) Hfind) as (Hi & _ & _).
  set (w1 := world_after (AppConfigurator.setConfigEntry newConfiguration) w) in *.
  unfold world_after at 1. rewrite setConfigEntry_run, Hfind, setConfig_run.
  assert (Hsame : merge_entries stored_entry newConfiguration = stored_entry).
  { rewrite Hentry. destruct (list_find _ (configurations (visible w)))
      as [[? ?] |]; [apply merge_entries_idem | apply merge_entries_self]. }
  rewrite Hsame, (list_insert_id _ _ _ Hi).
  unfold visible, schema_parse, merge_write; simpl.
  subst w1. unfold world_after.
  rewrite setConfigEntry_run, setConfig_run. simpl. done.
Qed.

(** X9. Upsert then look up: after [setConfigEntry], looking the payload's
    id up returns an entry with that id that carries every field the
    payload supplied, with the value it supplied. *)
Theorem setConfigEntry_then_lookup
    (newConfiguration : AdyenEntryConfigUpdate) (w : World) :
  exists found,
    result_of (ConfigManager.getConfigEntryDecrypted
                 (new_configurationId newConfiguration))
      (world_after (AppConfigurator.setConfigEntry newConfiguration) w)
    = Returned found
    /\ configurationId found = new_configurationId newConfiguration
    /\ (forall property field supplied,
          (property, field) ∈ entry_fields ->
          property newConfiguration = Present supplied ->
          field found = supplied).
Proof.
  destruct (find_after_setConfigEntry newConfiguration w)
    as (i & stored_entry & Hfind & Hentry).
  exists stored_entry.
  unfold result_of. rewrite getConfigEntryDecrypted_run, Hfind.
  split; [done |].
  apply list_find_Some in Hfind as (_ & Hid & _). split; [done |].
  intros property field supplied Hfield Hsupplied. rewrite Hentry.
  unfold entry_fields in Hfield.
  destruct (list_find _ (configurations (visible w))) as [[? existingEntry] |];
    repeat (apply elem_of_cons in Hfield as [[= -> ->] | Hfield];
            [simpl; unfold read; by rewrite Hsupplied |]);
    by apply elem_of_nil in Hfield.
Qed.

Lemma setConfigEntry_then_lookup_witness :
  exists found,
    result_of (ConfigManager.getConfigEntryDecrypted "b")
      (world_after (AppConfigurator.setConfigEntry
                      (mkPayload "b" (Present (Some "renamed")) (Present None)
                                 Absent Absent Absent))
                   Samples.three_entries)
    = Returned found
    /\ configurationName found = Some "renamed"
    /\ secretKey found = None.
Proof.
  destruct (setConfigEntry_then_lookup
              (mkPayload "b" (Present (Some "renamed")) (Present None)
                         Absent Absent Absent)
              Samples.three_entries) as (found & Hres & _ & Hfields).
  exists found. split; [exact Hres |]. split.
  - apply (Hfields new_configurationName configurationName (Some "renamed"));
      [| reflexivity].
    unfold entry_fields. apply elem_of_cons. by left.
  - apply (Hfields new_secretKey secretKey None); [| reflexivity].
    unfold entry_fields. apply elem_of_cons. right. apply elem_of_cons. by left.
Defined.

Lemma ids_after_setConfigEntry newConfiguration (w : World) :
  configurationId <$>
    configurations (visible (world_after
                               (AppConfigurator.setConfigEntry newConfiguration) w))
  = match list_find (fun entry => configurationId entry
                                  = new_configurationId newConfiguration)
                    (configurations (visible w)) with
    | Some _ => configurationId <$> configurations (visible w)
    | None => ((configurationId <$> configurations (visible w))
                 ++ [new_configurationId newConfiguration])%list
    end.
Proof.
  destruct (visible_after_setConfigEntry newConfiguration w) as [-> _].
  destruct (list_find _ _) as [[i existingEntry] |] eqn:Hfind.
  - apply list_find_Some in Hfind as (Hi & Hid & _).
    rewrite list_fmap_insert. apply list_insert_id.
    rewrite list_lookup_fmap, Hi. simpl. by rewrite <- Hid.
  - by rewrite fmap_app.
Qed.

Lemma visible_after_setMapping newMapping (w : World) :
  visible (world_after (AppConfigurator.setMapping newMapping) w)
  = {| configurations := configurations (visible w);
       channelToConfigurationId :=
         newMapping ∪ channelToConfigurationId (visible w) |}.
Proof. reflexivity. Qed.

Lemma visible_after_deleteMapping channel (w : World) :
  visible (world_after (AppConfigurator.deleteMapping channel) w)
  = {| configurations := configurations (visible w);
       channelToConfigurationId :=
         delete channel (channelToConfigurationId (visible w)) |}.
Proof. reflexivity. Qed.

(** X10. Uniqueness of configuration ids is an invariant of the
    configurator: if no two stored entries share an id, none do after
    [setConfigEntry], [deleteConfigEntry], [setMapping], [deleteMapping] or
    [clearConfig]. *)
Theorem configurator_keeps_ids_unique (w : World) :
  unique_ids (visible w) ->
  (forall newConfiguration,
      unique_ids (visible (world_after
                             (AppConfigurator.setConfigEntry newConfiguration) w)))
  /\ (forall id,
        unique_ids (visible (world_after (AppConfigurator.deleteConfigEntry id) w)))
  /\ (forall newMapping,
        unique_ids (visible (world_after (AppConfigurator.setMapping newMapping) w)))
  /\ (forall channel,
        unique_ids (visible (world_after (AppConfigurator.deleteMapping channel) w)))
  /\ unique_ids (visible (world_after AppConfigurator.clearConfig w)).
Proof.
  unfold unique_ids. intros Hunique. repeat apply conj.
  - intros newConfiguration. rewrite ids_after_setConfigEntry.
    destruct (list_find _ _) as [? |] eqn:Hfind; [done |].
    apply NoDup_app. split; [done |]. split; [| apply NoDup_singleton].
    intros id Hin Hnew. apply list_elem_of_singleton in Hnew as ->.
    apply list_elem_of_fmap in Hin as (e & Hid & Hin).
    apply list_find_None in Hfind. rewrite Forall_forall in Hfind.
    by apply (Hfind e).
  - intros id. rewrite visible_after_deleteConfigEntry. simpl.
    eapply sublist_NoDup; [exact Hunique |].
    apply fmap_sublist, sublist_filter.
  - intros newMapping. by rewrite visible_after_setMapping.
  - intros channel. by rewrite visible_after_deleteMapping.
  - apply NoDup_nil_2.
Qed.

Lemma configurator_keeps_ids_unique_witness :
  unique_ids (visible (world_after
                         (AppConfigurator.setConfigEntry
                            (as_payload (Samples.entry "d" "fourth" "4" "we_4")))
                         Samples.three_entries)).
Proof.
  apply (proj1 (configurator_keeps_ids_unique Samples.three_entries
                  ltac:(unfold unique_ids; vm_compute; apply NoDup_ListNoDup;
                        repeat constructor; simpl; intuition discriminate))).
Defined.

(** X11. Referential integrity of the channel mapping is kept by the
    operations on entries and by removing a mapping: if every channel is
    mapped to the id of some entry, that still holds after
    [setConfigEntry], [deleteConfigEntry] and [deleteMapping]; after
    [setMapping] it holds provided the new mappings point at stored ids. *)
Theorem mappings_resolve_preserved (w : World) :
  mappings_resolve (visible w) ->
  (forall newConfiguration,
      mappings_resolve
        (visible (world_after (AppConfigurator.setConfigEntry newConfiguration) w)))
  /\ (forall id,
        mappings_resolve
          (visible (world_after (AppConfigurator.deleteConfigEntry id) w)))
  /\ (forall channel,
        mappings_resolve
          (visible (world_after (AppConfigurator.deleteMapping channel) w)))
  /\ (forall newMapping : ChannelMapping,
        (forall channel target,
            newMapping !! channel = Some target ->
            exists e, e ∈ configurations (visible w)
                      /\ configurationId e = target) ->
        mappings_resolve
          (visible (world_after (AppConfigurator.setMapping newMapping) w))).
Proof.
  unfold mappings_resolve. intros Hresolve. repeat apply conj.
  - intros newConfiguration channel target.
    destruct (visible_after_setConfigEntry newConfiguration w) as [_ ->].
    intros Hlookup. destruct (Hresolve _ _ Hlookup) as (e & Hin & Hid).
    assert (Hids : target ∈ configurationId <$>
              configurations (visible (world_after
                (AppConfigurator.setConfigEntry newConfiguration) w))).
    { rewrite ids_after_setConfigEntry.
      assert (target ∈ configurationId <$> configurations (visible w))
        by (apply list_elem_of_fmap; eauto).
      destruct (list_find _ _); [done | set_solver]. }
    apply list_elem_of_fmap in Hids as (e' & ? & ?). eauto.
  - intros id channel target. rewrite visible_after_deleteConfigEntry. simpl.
    intros [Hlookup Hne]%map_lookup_filter_Some. simpl in Hne.
    destruct (Hresolve _ _ Hlookup) as (e & Hin & Hid).
    exists e. split; [| done]. apply list_elem_of_filter. split; [| done].
    by rewrite Hid.
  - intros channel' channel target. rewrite visible_after_deleteMapping. simpl.
    intros [_ Hlookup]%lookup_delete_Some. eauto.
  - intros newMapping Hnew channel target. rewrite visible_after_setMapping.
    simpl. intros [Hlookup | [_ Hlookup]]%lookup_union_Some_raw; eauto.
Qed.

Lemma mappings_resolve_preserved_witness :
  mappings_resolve
    (visible (world_after (AppConfigurator.deleteConfigEntry "c")
                Samples.three_entries)).
Proof.
  refine (proj1 (proj2 (mappings_resolve_preserved Samples.three_entries _)) "c").
  intros channel target Hlookup.
  assert (Hcases : target ∈ ["a"; "b"; "c"]).
  { change (channelToConfigurationId (visible Samples.three_entries))
      with ({[ "ch-1" := "a"; "ch-2" := "b"; "ch-3" := "c"; "ch-4" := "c" ]}
            : gmap string string) in Hlookup.
    repeat (apply lookup_insert_Some in Hlookup as [[_ <-] | [_ Hlookup]];
            [set_solver |]).
    apply lookup_singleton_Some in Hlookup as [_ <-]. set_solver. }
  apply elem_of_cons in Hcases as [-> | Hcases];
    [exists (Samples.entry "a" "first" "1" "we_1") |].
  2: apply elem_of_cons in Hcases as [-> | Hcases];
    [exists (Samples.entry "b" "second" "1" "we_1") |].
  3: apply list_elem_of_singleton in Hcases as ->;
    exists (Samples.entry "c" "third" "2" "we_bad").
  all: split; [apply list_elem_of_In; vm_compute; tauto | reflexivity].
Defined.

(** ** Further properties: resolving a channel *)

(** X12. [getConfigurationForChannel] returns an entry exactly when the
    channel id is a non-empty string mapped to a non-empty configuration id,
    and the entry is the first one in the list with that id. *)
Theorem getConfigurationForChannel_resolves_iff
    (appConfig : AppConfig) (channelId : ChannelIdArg) (entry : ConfigEntry) :
  getConfigurationForChannel appConfig channelId = Returned (Some entry)
  <-> exists channel id i,
        channelId = IdString channel
        /\ channel <> ""
        /\ channelToConfigurationId appConfig !! channel = Some id
        /\ id <> ""
        /\ first_with_id id (configurations appConfig) i entry.
Proof.
  split.
  - destruct channelId as [| | channel]; simpl; try discriminate.
    unfold falsy_string. case_bool_decide as Hchannel; [discriminate |].
    destruct (channelToConfigurationId appConfig !! channel) as [id |] eqn:Hmap;
      [| discriminate].
    case_bool_decide as Hid; [discriminate |].
    destruct (list_find _ _) as [[i found] |] eqn:Hfind; [| discriminate].
    intros [= ->]. exists channel, id, i. repeat split; try done;
      by apply first_with_id_find in Hfind as (? & ? & ?).
  - intros (channel & id & i & -> & Hchannel & Hmap & Hid & Hfirst).
    apply first_with_id_find in Hfirst. simpl. unfold falsy_string.
    rewrite bool_decide_eq_false_2 by done. rewrite Hmap.
    rewrite bool_decide_eq_false_2 by done. by rewrite Hfirst.
Qed.

(** X13. Map, then resolve: after [setMapping] with a single pair from a
    non-empty channel to the non-empty id of a stored entry, that channel
    resolves to the first entry with the id, every other channel resolves as
    before, and the entries are untouched. *)
Theorem setMapping_then_resolve
    (channel id : string) (i : nat) (entry : ConfigEntry) (w : World) :
  channel <> "" -> id <> "" ->
  first_with_id id (configurations (visible w)) i entry ->
  getConfigurationForChannel
    (visible (world_after (AppConfigurator.setMapping {[ channel := id ]}) w))
    (IdString channel)
  = Returned (Some entry)
  /\ (forall other,
        other <> IdString channel ->
        getConfigurationForChannel
          (visible (world_after (AppConfigurator.setMapping {[ channel := id ]}) w))
          other
        = getConfigurationForChannel (visible w) other)
  /\ configurations
       (visible (world_after (AppConfigurator.setMapping {[ channel := id ]}) w))
     = configurations (visible w).
Proof.
  intros Hchannel Hid Hfirst. rewrite visible_after_setMapping.
  repeat apply conj; [| | done].
  - apply getConfigurationForChannel_resolves_iff.
    exists channel, id, i. repeat split; try done; try apply Hfirst.
    simpl. rewrite <- insert_union_singleton_l. apply lookup_insert_eq.
  - intros [| | other] Hother; try done. simpl.
    rewrite <- insert_union_singleton_l, lookup_insert_ne; [done | congruence].
Qed.

Lemma setMapping_then_resolve_witness :
  getConfigurationForChannel
    (visible (world_after (AppConfigurator.setMapping {[ "ch-9" := "b" ]})
                Samples.three_entries))
    (IdString "ch-9")
  = Returned (Some (Samples.entry "b" "second" "1" "we_1")).
Proof.
  refine (proj1 (setMapping_then_resolve "ch-9" "b" 1
                   (Samples.entry "b" "second" "1" "we_1")
                   Samples.three_entries _ _ _)); try discriminate.
  repeat split. intros j other Hj Hlt. destruct j as [| j]; [| lia].
  vm_compute in Hj. injection Hj as <-. discriminate.
Defined.

(** X14. [deleteMapping] removes exactly one key: the channel no longer
    resolves, every other channel resolves as before, the entries are
    untouched, and on a channel that had no mapping the visible aggregate
    does not change. Undoing a fresh single [setMapping] with it restores
    the mapping. *)
Theorem deleteMapping_removes_one_key (channel : string) (w : World) :
  getConfigurationForChannel
    (visible (world_after (AppConfigurator.deleteMapping channel) w))
    (IdString channel)
  = Returned None
  /\ (forall other,
        other <> IdString channel ->
        getConfigurationForChannel
          (visible (world_after (AppConfigurator.deleteMapping channel) w)) other
        = getConfigurationForChannel (visible w) other)
  /\ configurations
       (visible (world_after (AppConfigurator.deleteMapping channel) w))
     = configurations (visible w)
  /\ (channelToConfigurationId (visible w) !! channel = None ->
      visible (world_after (AppConfigurator.deleteMapping channel) w) = visible w
      /\ forall id,
           visible (world_after (AppConfigurator.deleteMapping channel)
                      (world_after (AppConfigurator.setMapping {[ channel := id ]})
                         w))
           = visible w).
Proof.
  rewrite visible_after_deleteMapping. repeat apply conj; [| | done |].
  - simpl. rewrite lookup_delete_eq. by case_match.
  - intros [| | other] Hother; try done. simpl.
    rewrite lookup_delete_ne; [done | congruence].
  - intros Hnone. split.
    + rewrite delete_id by done. reflexivity.
    + intros id. rewrite visible_after_deleteMapping, visible_after_setMapping.
      simpl. rewrite <- insert_union_singleton_l, delete_insert_eq.
      rewrite delete_id by done. reflexivity.
Qed.

Lemma deleteMapping_removes_one_key_witness :
  visible (world_after (AppConfigurator.deleteMapping "ch-9")
             Samples.three_entries)
  = visible Samples.three_entries.
Proof.
  refine (proj1 (proj2 (proj2 (proj2 (deleteMapping_removes_one_key "ch-9"
                                        Samples.three_entries))) _)).
  vm_compute. reflexivity.
Defined.

(** X15. [clearConfig] empties the aggregate with one replacing write:
    afterwards no channel resolves, no id is found, and the log has grown by
    a single write with [replace] set. *)
Theorem clearConfig_empties (w : World) :
  (forall channelId,
      getConfigurationForChannel
        (visible (world_after AppConfigurator.clearConfig w)) channelId
      = Returned None)
  /\ (forall id,
        result_of (ConfigManager.getConfigEntryDecrypted id)
          (world_after AppConfigurator.clearConfig w)
        = Thrown (mkError EntryNotFoundError
                    (ConfigManager.not_found_message id)))
  /\ writes (new_events w (world_after AppConfigurator.clearConfig w))
     = [(mkPartial (Some []) (Some ∅), true)].
Proof.
  repeat apply conj.
  - intros [| | channel]; try done. simpl. by case_match.
  - intros id. unfold result_of. by rewrite getConfigEntryDecrypted_run.
  - unfold world_after, AppConfigurator.clearConfig. rewrite setConfig_run.
    simpl. by rewrite new_events_app.
Qed.

(** ** Further properties: the entry lifecycle *)

Lemma filter_keeps_all {A} (P : A -> Prop) `{!forall x, Decision (P x)}
    (l : list A) :
  (forall x, x ∈ l -> P x) -> filter P l = l.
Proof.
  induction l as [| x l IH]; [done |]. intros Hall.
  rewrite filter_cons_True by (apply Hall; left).
  f_equal. apply IH. intros y Hy. apply Hall. by right.
Qed.

Lemma manager_delete_unknown (ext : Collaborators) id (w : World) :
  (forall e, e ∈ configurations (visible w) -> configurationId e <> id) ->
  ConfigManager.deleteConfigEntry ext id w
  = (Thrown (mkError EntryNotFoundError (ConfigManager.not_found_message id)), w).
Proof.
  intros Hnone. apply no_entry_find in Hnone.
  unfold ConfigManager.deleteConfigEntry, ConfigManager.getAllConfigEntriesDecrypted,
    bind, AppConfigurator.getConfig, ret.
  fold (visible w). by rewrite Hnone.
Qed.

Lemma updateConfigEntry_run (ext : Collaborators) input (w : World) :
  ConfigManager.updateConfigEntry ext input w
  = match list_find (fun entry => configurationId entry = upd_configurationId input)
                    (configurations (visible w)) with
    | Some (_, existingEntry) =>
        (Returned (obfuscateConfigEntry ext
                     (entry_with_fields existingEntry (upd_entry input))),
         world_after (AppConfigurator.setConfigEntry
                        (fields_with_id (upd_entry input)
                                        (upd_configurationId input))) w)
    | None =>
        (Thrown (mkError EntryNotFoundError
                   (ConfigManager.not_found_message (upd_configurationId input))),
         w)
    end.
Proof.
  unfold ConfigManager.updateConfigEntry, bind at 1.
  rewrite getConfigEntryDecrypted_run.
  destruct (list_find _ _) as [[i existingEntry] |]; [| done].
  unfold bind, world_after.
  by destruct (AppConfigurator.setConfigEntry _ w) as [[[] | e] w'] eqn:Hset;
    rewrite setConfigEntry_run, setConfig_run in Hset; simplify_eq.
Qed.

(** X16. An id no entry has is reported by lookup, update and delete alike:
    each throws EntryNotFoundError with the message naming the id, and the
    world is left exactly as it was (nothing written, nothing called). *)
Theorem unknown_id_is_reported_and_nothing_changes
    (ext : Collaborators) (id : string) (entry : EntryFields) (w : World) :
  (forall e, e ∈ configurations (visible w) -> configurationId e <> id) ->
  ConfigManager.getConfigEntryDecrypted id w
  = (Thrown (mkError EntryNotFoundError ("Entry with id " ++ id ++ " was not found")),
     w)
  /\ ConfigManager.updateConfigEntry ext (mkUpdate entry id) w
     = (Thrown (mkError EntryNotFoundError
                  ("Entry with id " ++ id ++ " was not found")), w)
  /\ ConfigManager.deleteConfigEntry ext id w
     = (Thrown (mkError EntryNotFoundError
                  ("Entry with id " ++ id ++ " was not found")), w).
Proof.
  intros Hnone. pose proof (proj1 (no_entry_find _ _) Hnone) as Hfind.
  repeat apply conj.
  - by rewrite getConfigEntryDecrypted_run, Hfind.
  - rewrite updateConfigEntry_run.
    cbn [upd_configurationId upd_entry]. by rewrite Hfind.
  - by apply manager_delete_unknown.
Qed.

Lemma unknown_id_is_reported_and_nothing_changes_witness :
  ConfigManager.deleteConfigEntry Samples.ext "z" Samples.three_entries
  = (Thrown (mkError EntryNotFoundError "Entry with id z was not found"),
     Samples.three_entries).
Proof.
  refine (proj2 (proj2 (unknown_id_is_reported_and_nothing_changes Samples.ext
                          "z" (mkFields Absent Absent Absent Absent Absent)
                          Samples.three_entries _))).
  intros e He. apply list_elem_of_In in He. vm_compute in He.
  destruct He as [<- | [<- | [<- | []]]]; discriminate.
Defined.

(** X17. Once an existing entry has been deleted its id is gone: looking it
    up throws EntryNotFoundError, deleting it again throws
    EntryNotFoundError and changes nothing, and no channel resolves to an
    entry with that id. *)
Theorem deleted_id_is_gone (ext : Collaborators) (id : string) (w : World) :
  (exists e, e ∈ configurations (visible w) /\ configurationId e = id) ->
  result_of (ConfigManager.getConfigEntryDecrypted id)
    (world_after (ConfigManager.deleteConfigEntry ext id) w)
  = Thrown (mkError EntryNotFoundError (ConfigManager.not_found_message id))
  /\ ConfigManager.deleteConfigEntry ext id
       (world_after (ConfigManager.deleteConfigEntry ext id) w)
     = (Thrown (mkError EntryNotFoundError (ConfigManager.not_found_message id)),
        world_after (ConfigManager.deleteConfigEntry ext id) w)
  /\ (forall channelId found,
        getConfigurationForChannel
          (visible (world_after (ConfigManager.deleteConfigEntry ext id) w))
          channelId
        = Returned (Some found) ->
        configurationId found <> id).
Proof.
  intros Hex. destruct (existing_entry_first _ _ Hex) as (i & entry & Hfirst).
  destruct (manager_delete_existing ext id w i entry Hfirst)
    as (before_write & Hrun & _).
  unfold world_after. rewrite Hrun. cbn [fst snd].
  set (w' := mkWorld _ _ _).
  assert (Hgone : forall e, e ∈ configurations (visible w') ->
                            configurationId e <> id).
  { intros e He. unfold w', visible, schema_parse in He. simpl in He.
    by apply list_elem_of_filter in He as [He _]. }
  repeat apply conj.
  - unfold result_of. rewrite getConfigEntryDecrypted_run.
    by rewrite (proj1 (no_entry_find _ _) Hgone).
  - by apply manager_delete_unknown.
  - intros channelId found Hfound.
    apply getConfigurationForChannel_resolves_iff
      in Hfound as (? & ? & j & _ & _ & _ & _ & Hj & _ & _).
    apply Hgone. by eapply list_elem_of_lookup_2.
Qed.

Lemma deleted_id_is_gone_witness :
  result_of (ConfigManager.getConfigEntryDecrypted "a")
    (world_after (ConfigManager.deleteConfigEntry Samples.ext "a")
       Samples.three_entries)
  = Thrown (mkError EntryNotFoundError "Entry with id a was not found").
Proof.
  refine (proj1 (deleted_id_is_gone Samples.ext "a" Samples.three_entries _)).
  exists (Samples.entry "a" "first" "1" "we_1"). split; [| reflexivity].
  apply list_elem_of_In. vm_compute. tauto.
Defined.

Lemma add_run_success
    (ext : Collaborators) (saleorApiUrl : string)
    (newConfigEntry : FormConfigEntry) (appUrl : string) (w : World) binding :
  String.prefix "rk_" (form_secretKey newConfigEntry) = false ->
  paymentIntents_list ext (form_secretKey newConfigEntry) = None ->
  tokens_create ext (form_publishableKey newConfigEntry) = None ->
  createStripeWebhook_impl ext appUrl (form_secretKey newConfigEntry)
                           saleorApiUrl (visible w)
  = Returned binding ->
  ConfigManager.addConfigEntry ext saleorApiUrl newConfigEntry appUrl w
  = (Returned
       (obfuscateConfigEntry ext
          (mkConfigEntry (uuidv7_nth ext (ids_issued w))
             (Some (form_configurationName newConfigEntry))
             (Some (form_secretKey newConfigEntry))
             (Some (form_publishableKey newConfigEntry))
             (Some (b_webhookId binding)) (Some (b_webhookSecret binding)))),
     world_after
       (AppConfigurator.setConfigEntry
          (as_payload
             (mkConfigEntry (uuidv7_nth ext (ids_issued w))
                (Some (form_configurationName newConfigEntry))
                (Some (form_secretKey newConfigEntry))
                (Some (form_publishableKey newConfigEntry))
                (Some (b_webhookId binding)) (Some (b_webhookSecret binding)))))
       (mkWorld (stored w)
                (log w ++ [CalledPaymentIntentsList (form_secretKey newConfigEntry);
                           CalledTokensCreate (form_publishableKey newConfigEntry);
                           CalledCreateStripeWebhook
                             appUrl (form_secretKey newConfigEntry) saleorApiUrl;
                           CalledUuidv7])
                (S (ids_issued w)))).
Proof.
  intros Hrk Hsecret Hpub Hcreate.
  unfold ConfigManager.addConfigEntry, bind at 1.
  rewrite validateStripeKeys_run, Hrk, Hsecret, Hpub.
  unfold bind at 1, ConfigManager.createStripeWebhook, bind at 1 2, emit,
    AppConfigurator.getConfig, lift. simpl.
  unfold visible in Hcreate. simpl in Hcreate. rewrite Hcreate.
  unfold bind at 1, ConfigManager.uuidv7, bind at 1, emit. simpl.
  rewrite <- !app_assoc. simpl.
  unfold bind, world_after.
  by destruct (AppConfigurator.setConfigEntry _ _) as [[[] | e] w'] eqn:Hset;
    rewrite setConfigEntry_run, setConfig_run in Hset; simplify_eq.
Qed.

(** X18. A successful Add with a fresh id: when the keys pass validation,
    the provisioner returns a webhook binding and the generated id is not
    the id of a stored entry, Add appends one entry, made of the form's
    fields, the binding and the id, at the end of the list, leaves the
    mapping alone, returns that entry obfuscated, and has called, in this
    order, the secret-key check, the publishable-key check, the provisioner
    and the id generator before its single write. *)
Theorem add_appends_fresh_entry_in_order
    (ext : Collaborators) (saleorApiUrl : string)
    (newConfigEntry : FormConfigEntry) (appUrl : string) (w : World)
    (binding : WebhookBinding) :
  String.prefix "rk_" (form_secretKey newConfigEntry) = false ->
  paymentIntents_list ext (form_secretKey newConfigEntry) = None ->
  tokens_create ext (form_publishableKey newConfigEntry) = None ->
  createStripeWebhook_impl ext appUrl (form_secretKey newConfigEntry)
                           saleorApiUrl (visible w)
  = Returned binding ->
  (forall e, e ∈ configurations (visible w) ->
             configurationId e <> uuidv7_nth ext (ids_issued w)) ->
  exists added,
    added = mkConfigEntry (uuidv7_nth ext (ids_issued w))
              (Some (form_configurationName newConfigEntry))
              (Some (form_secretKey newConfigEntry))
              (Some (form_publishableKey newConfigEntry))
              (Some (b_webhookId binding)) (Some (b_webhookSecret binding))
    /\ result_of (ConfigManager.addConfigEntry ext saleorApiUrl newConfigEntry
                    appUrl) w
       = Returned (obfuscateConfigEntry ext added)
    /\ configurations
         (visible (world_after (ConfigManager.addConfigEntry ext saleorApiUrl
                                  newConfigEntry appUrl) w))
       = (configurations (visible w) ++ [added])%list
    /\ channelToConfigurationId
         (visible (world_after (ConfigManager.addConfigEntry ext saleorApiUrl
                                  newConfigEntry appUrl) w))
       = channelToConfigurationId (visible w)
    /\ ids_issued (world_after (ConfigManager.addConfigEntry ext saleorApiUrl
                                  newConfigEntry appUrl) w)
       = S (ids_issued w)
    /\ new_events w (world_after (ConfigManager.addConfigEntry ext saleorApiUrl
                                    newConfigEntry appUrl) w)
       = [CalledPaymentIntentsList (form_secretKey newConfigEntry);
          CalledTokensCreate (form_publishableKey newConfigEntry);
          CalledCreateStripeWebhook appUrl (form_secretKey newConfigEntry)
                                    saleorApiUrl;
          CalledUuidv7;
          WroteConfig
            (mkPartial (Some (configurations (visible w) ++ [added])%list) None)
            false].
Proof.
  intros Hrk Hsecret Hpub Hcreate Hfresh. eexists. split; [reflexivity |].
  pose proof (proj1 (no_entry_find _ _) Hfresh) as Hfind.
  unfold result_of, world_after.
  rewrite (add_run_success _ _ _ _ _ _ Hrk Hsecret Hpub Hcreate). cbn [fst snd].
  split; [done |].
  unfold world_after. rewrite setConfigEntry_run.
  match goal with
  | |- context [visible (mkWorld (stored w) ?l ?n)] =>
      change (visible (mkWorld (stored w) l n)) with (visible w)
  end.
  cbn [configurationId new_configurationId as_payload].
  rewrite Hfind, setConfig_run. cbn [fst snd].
  unfold visible, schema_parse, merge_write.
  cbn [stored log ids_issued p_configurations p_channelToConfigurationId
       configurations channelToConfigurationId default or_else].
  change (as_entry (as_payload ?e)) with e.
  repeat split.
  rewrite <- app_assoc. by rewrite (new_events_app w).
Qed.

Lemma add_appends_fresh_entry_in_order_witness :
  exists added,
    added = mkConfigEntry "0190-0" (Some "shop") (Some "sk_test_good")
              (Some "pk_test_good") (Some "we_1") (Some "whsec_1")
    /\ result_of (ConfigManager.addConfigEntry Samples.ext Samples.saleorApiUrl
                    (mkForm "shop" "sk_test_good" "pk_test_good")
                    "https://app.example") Samples.three_entries
       = Returned (obfuscateConfigEntry Samples.ext added).
Proof.
  destruct (add_appends_fresh_entry_in_order Samples.ext Samples.saleorApiUrl
              (mkForm "shop" "sk_test_good" "pk_test_good") "https://app.example"
              Samples.three_entries (mkBinding "whsec_1" "we_1"))
    as (added & Hadded & Hresult & _); try reflexivity.
  - intros e He. apply list_elem_of_In in He. vm_compute in He.
    destruct He as [<- | [<- | [<- | []]]]; discriminate.
  - exists added. split; [exact Hadded | exact Hresult].
Defined.

(** X19. Add, then delete what was added: under the conditions of a
    successful Add with a fresh id, and mappings that all point at stored
    entries, deleting the new id returns and brings the visible aggregate
    back to what it was before the Add. *)
Theorem add_then_delete_restores
    (ext : Collaborators) (saleorApiUrl : string)
    (newConfigEntry : FormConfigEntry) (appUrl : string) (w : World)
    (binding : WebhookBinding) :
  String.prefix "rk_" (form_secretKey newConfigEntry) = false ->
  paymentIntents_list ext (form_secretKey newConfigEntry) = None ->
  tokens_create ext (form_publishableKey newConfigEntry) = None ->
  createStripeWebhook_impl ext appUrl (form_secretKey newConfigEntry)
                           saleorApiUrl (visible w)
  = Returned binding ->
  (forall e, e ∈ configurations (visible w) ->
             configurationId e <> uuidv7_nth ext (ids_issued w)) ->
  mappings_resolve (visible w) ->
  result_of (ConfigManager.deleteConfigEntry ext (uuidv7_nth ext (ids_issued w)))
    (world_after (ConfigManager.addConfigEntry ext saleorApiUrl newConfigEntry
                    appUrl) w)
  = Returned tt
  /\ visible
       (world_after
          (ConfigManager.deleteConfigEntry ext (uuidv7_nth ext (ids_issued w)))
          (world_after (ConfigManager.addConfigEntry ext saleorApiUrl
                          newConfigEntry appUrl) w))
     = visible w.
Proof.
  intros Hrk Hsecret Hpub Hcreate Hfresh Hresolve.
  destruct (add_appends_fresh_entry_in_order ext saleorApiUrl newConfigEntry
              appUrl w binding Hrk Hsecret Hpub Hcreate Hfresh)
    as (added & Hadded & _ & Hentries & Hmapping & _).
  set (w1 := world_after (ConfigManager.addConfigEntry ext saleorApiUrl
                            newConfigEntry appUrl) w) in *.
  set (id := uuidv7_nth ext (ids_issued w)) in *.
  assert (Hex : exists e, e ∈ configurations (visible w1) /\ configurationId e = id).
  { exists added. rewrite Hentries. split; [set_solver | by subst added]. }
  destruct (existing_entry_first _ _ Hex) as (i & entry & Hfirst).
  destruct (manager_delete_existing ext id w1 i entry Hfirst)
    as (before_write & Hrun & _).
  unfold result_of, world_after. rewrite Hrun. cbn [fst snd]. split; [done |].
  unfold visible at 1, schema_parse.
  cbn [stored p_configurations p_channelToConfigurationId default].
  rewrite Hentries, Hmapping, filter_app.
  rewrite (filter_keeps_all _ _ Hfresh).
  rewrite filter_cons_False, filter_nil, app_nil_r by (subst added; simpl; tauto).
  rewrite map_filter_id.
  - reflexivity.
  - intros channel target Hlookup. simpl. intros ->.
    destruct (Hresolve _ _ Hlookup) as (e & Hin & Hid). by apply (Hfresh e).
Qed.

Lemma three_entries_mappings_resolve :
  mappings_resolve (visible Samples.three_entries).
Proof.
  intros channel target Hlookup.
  assert (Hcases : target ∈ ["a"; "b"; "c"]).
  { change (channelToConfigurationId (visible Samples.three_entries))
      with ({[ "ch-1" := "a"; "ch-2" := "b"; "ch-3" := "c"; "ch-4" := "c" ]}
            : gmap string string) in Hlookup.
    repeat (apply lookup_insert_Some in Hlookup as [[_ <-] | [_ Hlookup]];
            [set_solver |]).
    apply lookup_singleton_Some in Hlookup as [_ <-]. set_solver. }
  apply elem_of_cons in Hcases as [-> | Hcases];
    [exists (Samples.entry "a" "first" "1" "we_1") |].
  2: apply elem_of_cons in Hcases as [-> | Hcases];
    [exists (Samples.entry "b" "second" "1" "we_1") |].
  3: apply list_elem_of_singleton in Hcases as ->;
    exists (Samples.entry "c" "third" "2" "we_bad").
  all: split; [apply list_elem_of_In; vm_compute; tauto | reflexivity].
Qed.

Lemma add_then_delete_restores_witness :
  visible
    (world_after (ConfigManager.deleteConfigEntry Samples.ext "0190-0")
       (world_after (ConfigManager.addConfigEntry Samples.ext Samples.saleorApiUrl
                       (mkForm "shop" "sk_test_good" "pk_test_good")
                       "https://app.example") Samples.three_entries))
  = visible Samples.three_entries
  /\ length (configurations
               (visible
                  (world_after
                     (ConfigManager.addConfigEntry Samples.ext
                        Samples.saleorApiUrl
                        (mkForm "shop" "sk_test_good" "pk_test_good")
                        "https://app.example") Samples.three_entries)))
     = 4
  /\ length (configurations (visible Samples.three_entries)) = 3.
Proof.
  split; [| split; reflexivity].
  refine (proj2 (add_then_delete_restores Samples.ext Samples.saleorApiUrl
                   (mkForm "shop" "sk_test_good" "pk_test_good")
                   "https://app.example" Samples.three_entries
                   (mkBinding "whsec_1" "we_1") _ _ _ _ _ _)); try reflexivity.
  - intros e He. apply list_elem_of_In in He. vm_compute in He.
    destruct He as [<- | [<- | [<- | []]]]; discriminate.
  - exact three_entries_mappings_resolve.
Defined.

(** X20. Reading through the obfuscating view finds the same entry as
    reading decrypted, masked: provided [obfuscateConfigEntry] keeps the
    configuration id, [getConfigEntryObfuscated] returns the obfuscation of
    what [getConfigEntryDecrypted] returns and throws the same error when it
    throws; the obfuscated list is the decrypted list mapped through
    [obfuscateConfigEntry]; and neither read changes the world. *)
Theorem obfuscated_reads_agree_with_decrypted
    (ext : Collaborators) (id : string) (w : World) :
  (forall e, configurationId (obfuscateConfigEntry ext e) = configurationId e) ->
  ConfigManager.getConfigEntryObfuscated ext id w
  = (match result_of (ConfigManager.getConfigEntryDecrypted id) w with
     | Returned entry => Returned (obfuscateConfigEntry ext entry)
     | Thrown e => Thrown e
     end, w)
  /\ ConfigManager.getAllConfigEntriesObfuscated ext w
     = (Returned (obfuscateConfigEntry ext <$> configurations (visible w)), w)
  /\ world_after (ConfigManager.getConfigEntryDecrypted id) w = w.
Proof.
  intros Hid. unfold result_of, world_after.
  rewrite getConfigEntryDecrypted_run. simpl. split; [| done].
  unfold ConfigManager.getConfigEntryObfuscated,
    ConfigManager.getAllConfigEntriesObfuscated,
    AppConfigurator.getConfigObfuscated, bind, AppConfigurator.getConfig, ret,
    throw. simpl. fold (visible w).
  rewrite list_find_fmap.
  rewrite (list_find_ext _ (fun entry => configurationId entry = id))
    by (intros e; simpl; by rewrite Hid).
  by destruct (list_find _ _) as [[i entry] |].
Qed.

Lemma obfuscated_reads_agree_with_decrypted_witness :
  ConfigManager.getConfigEntryObfuscated Samples.ext "c" Samples.three_entries
  = (Returned (mkConfigEntry "c" (Some "third") (Some "****") (Some "****")
                 (Some "we_bad") (Some "****")),
     Samples.three_entries).
Proof.
  refine (eq_trans
            (proj1 (obfuscated_reads_agree_with_decrypted Samples.ext "c"
                      Samples.three_entries _)) _); reflexivity.
Defined.

Lemma visible_of_written entries mapping events n :
  visible (mkWorld (mkPartial (Some entries) mapping) events n)
  = mkAppConfig entries (default ∅ mapping).
Proof. reflexivity. Qed.

Lemma update_run_existing
    (ext : Collaborators) (id : string) (entry : EntryFields)
    (i : nat) (existingEntry : ConfigEntry) (w : World) :
  first_with_id id (configurations (visible w)) i existingEntry ->
  ConfigManager.updateConfigEntry ext (mkUpdate entry id) w
  = (Returned (obfuscateConfigEntry ext (entry_with_fields existingEntry entry)),
     mkWorld
       (mkPartial
          (Some (<[i := entry_with_fields existingEntry entry]>
                   (configurations (visible w))))
          (p_channelToConfigurationId (stored w)))
       (log w ++ [WroteConfig
                    (mkPartial
                       (Some (<[i := entry_with_fields existingEntry entry]>
                                (configurations (visible w))))
                       None)
                    false])
       (ids_issued w)).
Proof.
  intros Hfirst. pose proof Hfirst as (_ & Hid & _).
  apply first_with_id_find in Hfirst.
  assert (Hmerge : merge_entries existingEntry (fields_with_id entry id)
                   = entry_with_fields existingEntry entry).
  { unfold merge_entries, entry_with_fields. simpl. by rewrite Hid. }
  rewrite updateConfigEntry_run. cbn [upd_configurationId upd_entry].
  rewrite Hfirst. f_equal.
  unfold world_after. rewrite setConfigEntry_run.
  change (new_configurationId (fields_with_id entry id)) with id.
  by rewrite Hfirst, Hmerge, setConfig_run.
Qed.

(** X21. An update of an existing entry changes that entry and nothing
    else: the first entry with the id is replaced in place by the existing
    entry with the properties of the input laid over it (a property present
    in the input wins, whatever its value, an absent one keeps the stored
    value), the id kept; the mapping and the id counter are untouched; the
    only event is one non-replacing write (no key is validated, no webhook
    is provisioned or retired); and the value returned is the obfuscation of
    the entry now stored. *)
Theorem update_changes_one_entry_only
    (ext : Collaborators) (id : string) (entry : EntryFields)
    (i : nat) (existingEntry : ConfigEntry) (w : World) :
  first_with_id id (configurations (visible w)) i existingEntry ->
  result_of (ConfigManager.updateConfigEntry ext (mkUpdate entry id)) w
  = Returned (obfuscateConfigEntry ext (entry_with_fields existingEntry entry))
  /\ configurations
       (visible (world_after
                   (ConfigManager.updateConfigEntry ext (mkUpdate entry id)) w))
     = <[i := entry_with_fields existingEntry entry]> (configurations (visible w))
  /\ result_of (ConfigManager.getConfigEntryDecrypted id)
       (world_after (ConfigManager.updateConfigEntry ext (mkUpdate entry id)) w)
     = Returned (entry_with_fields existingEntry entry)
  /\ channelToConfigurationId
       (visible (world_after
                   (ConfigManager.updateConfigEntry ext (mkUpdate entry id)) w))
     = channelToConfigurationId (visible w)
  /\ ids_issued (world_after
                   (ConfigManager.updateConfigEntry ext (mkUpdate entry id)) w)
     = ids_issued w
  /\ new_events w (world_after
                     (ConfigManager.updateConfigEntry ext (mkUpdate entry id)) w)
     = [WroteConfig
          (mkPartial
             (Some (<[i := entry_with_fields existingEntry entry]>
                      (configurations (visible w))))
             None)
          false]
  /\ configurationId (entry_with_fields existingEntry entry) = id
  /\ (forall property field,
        (property, field) ∈ update_fields ->
        field (entry_with_fields existingEntry entry)
        = match property entry with
          | Present supplied => supplied
          | Absent => field existingEntry
          end).
Proof.
  intros Hfirst. pose proof Hfirst as (Hi & Hid & Hbefore).
  assert (Hfields : forall property field,
             (property, field) ∈ update_fields ->
             field (entry_with_fields existingEntry entry)
             = match property entry with
               | Present supplied => supplied
               | Absent => field existingEntry
               end).
  { intros property field Hfield. unfold update_fields in Hfield.
    repeat (apply elem_of_cons in Hfield as [[= -> ->] | Hfield]; [done |]).
    by apply elem_of_nil in Hfield. }
  unfold result_of, world_after.
  rewrite (update_run_existing ext id entry i existingEntry w Hfirst).
  cbn [fst snd]. split; [done |].
  rewrite getConfigEntryDecrypted_run, new_events_app, !visible_of_written.
  cbn [fst configurations channelToConfigurationId ids_issued].
  repeat apply conj; try done.
  assert (Hfound : list_find (fun e => configurationId e = id)
                     (<[i := entry_with_fields existingEntry entry]>
                        (configurations (visible w)))
                   = Some (i, entry_with_fields existingEntry entry)).
  { apply list_find_Some. repeat split.
    - apply list_lookup_insert_eq. by eapply lookup_lt_Some.
    - exact Hid.
    - intros j other Hj Hlt. rewrite list_lookup_insert_ne in Hj by lia.
      by eapply Hbefore. }
  by rewrite Hfound.
Qed.

Lemma update_changes_one_entry_only_witness :
  result_of (ConfigManager.updateConfigEntry Samples.ext
               (mkUpdate (mkFields (Present (Some "renamed")) (Present None)
                                   Absent Absent Absent) "a"))
    Samples.three_entries
  = Returned (mkConfigEntry "a" (Some "renamed") None (Some "****")
                (Some "we_1") (Some "****")).
Proof.
  refine (proj1 (update_changes_one_entry_only Samples.ext "a"
                   (mkFields (Present (Some "renamed")) (Present None)
                             Absent Absent Absent) 0
                   (Samples.entry "a" "first" "1" "we_1")
                   Samples.three_entries _)).
  repeat split. intros j other _ Hlt. lia.
Defined.

(** X22. An update that supplies no field is a no-op on the store: for an
    existing id the visible aggregate after it is the one before it, and
    the existing entry comes back obfuscated. *)
Theorem empty_update_changes_nothing
    (ext : Collaborators) (id : string)
    (i : nat) (existingEntry : ConfigEntry) (w : World) :
  first_with_id id (configurations (visible w)) i existingEntry ->
  visible (world_after
             (ConfigManager.updateConfigEntry ext
                (mkUpdate (mkFields Absent Absent Absent Absent Absent) id)) w)
  = visible w
  /\ result_of (ConfigManager.updateConfigEntry ext
                  (mkUpdate (mkFields Absent Absent Absent Absent Absent) id)) w
     = Returned (obfuscateConfigEntry ext existingEntry).
Proof.
  intros Hfirst. pose proof Hfirst as (Hi & _ & _).
  assert (Hsame : entry_with_fields existingEntry
                    (mkFields Absent Absent Absent Absent Absent) = existingEntry)
    by (by destruct existingEntry).
  unfold result_of, world_after.
  rewrite (update_run_existing ext id _ i existingEntry w Hfirst).
  cbn [fst snd]. rewrite Hsame. split; [| done].
  by rewrite (list_insert_id _ _ _ Hi), visible_of_written.
Qed.

Lemma empty_update_changes_nothing_witness :
  visible (world_after
             (ConfigManager.updateConfigEntry Samples.ext
                (mkUpdate (mkFields Absent Absent Absent Absent Absent) "b"))
             Samples.three_entries)
  = visible Samples.three_entries.
Proof.
  refine (proj1 (empty_update_changes_nothing Samples.ext "b" 1
                   (Samples.entry "b" "second" "1" "we_1")
                   Samples.three_entries _)).
  repeat split. intros j other Hj Hlt. destruct j as [| j]; [| lia].
  vm_compute in Hj. injection Hj as <-. discriminate.
Defined.

(** ** Further properties: how the operations compose *)

(** X23. Two [setMapping] calls amount to one with the union of the two
    maps, the later call winning on a shared channel; a [setMapping] with no
    pair leaves the visible aggregate as it is. *)
Theorem setMapping_composes (first second : ChannelMapping) (w : World) :
  visible (world_after (AppConfigurator.setMapping second)
             (world_after (AppConfigurator.setMapping first) w))
  = visible (world_after (AppConfigurator.setMapping (second ∪ first)) w)
  /\ visible (world_after (AppConfigurator.setMapping ∅) w) = visible w.
Proof.
  rewrite !visible_after_setMapping. simpl. split.
  - by rewrite (assoc_L (∪)).
  - by rewrite (left_id_L ∅ (∪)).
Qed.

(** X24. Deletions of entries commute: removing two ids through the
    configurator leaves the same visible aggregate in either order, and
    removing the same id twice is the same as removing it once. *)
Theorem deleteConfigEntry_commutes (id1 id2 : string) (w : World) :
  visible (world_after (AppConfigurator.deleteConfigEntry id2)
             (world_after (AppConfigurator.deleteConfigEntry id1) w))
  = visible (world_after (AppConfigurator.deleteConfigEntry id1)
               (world_after (AppConfigurator.deleteConfigEntry id2) w))
  /\ visible (world_after (AppConfigurator.deleteConfigEntry id1)
                (world_after (AppConfigurator.deleteConfigEntry id1) w))
     = visible (world_after (AppConfigurator.deleteConfigEntry id1) w).
Proof.
  rewrite !visible_after_deleteConfigEntry. simpl. split.
  - f_equal.
    + rewrite !list_filter_filter. apply list_filter_iff. tauto.
    + apply map_filter_comm.
  - f_equal.
    + rewrite list_filter_filter. apply list_filter_iff. tauto.
    + rewrite map_filter_filter. apply map_filter_ext. naive_solver.
Qed.

(** ** Further properties: what the functions can produce *)

(** X25. Every error [validateStripeKeys] throws is a field error for the
    form: its class is RestrictedKeyNotSupportedError or
    InvalidSecretKeyError, both direct subclasses of FieldError, and the
    field it names is secretKey. *)
Theorem validation_errors_are_field_errors
    (ext : Collaborators) (secretKey publishableKey : string) (w : World)
    (e : Error) :
  result_of (validateStripeKeys ext secretKey publishableKey) w = Thrown e ->
  (class e = RestrictedKeyNotSupportedError \/ class e = InvalidSecretKeyError)
  /\ parent (class e) = Some FieldError
  /\ fieldName (class e) = Some "secretKey".
Proof.
  unfold result_of. rewrite validateStripeKeys_run.
  destruct (String.prefix "rk_" secretKey); simpl.
  { intros [= <-]. simpl. tauto. }
  destruct (paymentIntents_list ext secretKey) as [failure |]; simpl.
  { intros [= <-]. simpl. tauto. }
  destruct (tokens_create ext publishableKey) as [failure |]; simpl;
    [| discriminate].
  intros [= <-]. simpl. tauto.
Qed.

Lemma validation_errors_are_field_errors_witness :
  fieldName (class (mkError InvalidSecretKeyError "Provided secret key is invalid"))
  = Some "secretKey".
Proof.
  refine (proj2 (proj2 (validation_errors_are_field_errors Samples.ext
                          "sk_test_bad" "pk_test_good" Samples.empty_world
                          (mkError InvalidSecretKeyError
                             "Provided secret key is invalid") _))).
  reflexivity.
Defined.

(** X26. The two strategies never translate to the same result: whatever
    the statuses, a result returned under Authorization differs from every
    result returned under Charge. *)
Theorem strategies_give_distinct_results (status1 status2 result : string) :
  stripePaymentIntentToTransactionResult Authorization status1
  = Returned (Some result) ->
  stripePaymentIntentToTransactionResult Charge status2
  <> Returned (Some result).
Proof.
  unfold stripePaymentIntentToTransactionResult. simpl.
  repeat case_decide; intros [= <-]; discriminate.
Qed.

Lemma strategies_give_distinct_results_witness :
  stripePaymentIntentToTransactionResult Charge "succeeded"
  <> Returned (Some "AUTHORIZATION_SUCCESS").
Proof.
  apply (strategies_give_distinct_results "succeeded" "succeeded"
           "AUTHORIZATION_SUCCESS").
  reflexivity.
Defined.
